(** * Data-shape detection and chart preparation, verified against the code

  A shallow embedding of the TypeScript sources of the table
  visualisation tool:

  - [dataTypeDetection.ts], manual-mode variant ([Module ManualMode]);
  - [dataTypeDetection.ts], auto-detecting variant ([Module Detection]);
  - [ChartDisplay.tsx], the function [prepareChartData]
    ([Module ChartDisplay]);

  preceded by the part of the JavaScript runtime these functions call
  ([Module JS]): numbers, the conversion [Number(...)], [isNaN],
  truthiness and property lookup. *)

From Stdlib Require Import ZArith Ascii String List Bool.
From Stdlib Require Import Floats.SpecFloat.
From stdpp Require Import gmap strings list pretty.

(* ===================================================================== *)
(** ** The JavaScript runtime the sources rely on *)
(* ===================================================================== *)

Module JS.

Local Open Scope Z_scope.

(** A JavaScript number is an IEEE 754 binary64 value: signed zeros,
    signed infinities, one NaN, and finite values [m * 2^e]. *)
Abbreviation number := spec_float.

Definition prec : Z := 53.
Definition emax : Z := 1024.

Definition NaN : number := S754_nan.
Definition Infinity (neg : bool) : number := S754_infinity neg.

(** The number value of a mathematical integer (round to nearest, ties
    to even; exact below [2^53]). *)
Definition of_Z (z : Z) : number := binary_normalize prec emax z 0 false.
Definition of_nat (n : nat) : number := of_Z (Z.of_nat n).

(** The global [isNaN] applied to a number. *)
Definition isNaN (x : number) : bool :=
  match x with S754_nan => true | _ => false end.

(** [ToBoolean] on numbers: [+0], [-0] and [NaN] are falsy. *)
Definition truthy_number (x : number) : bool :=
  match x with
  | S754_zero _ | S754_nan => false
  | _ => true
  end.

(** *** StringToNumber

    Strings are sequences of code units below 256.  The white space
    and line terminator code units in that range are TAB, LF, VT, FF,
    CR, SP and NBSP. *)
Definition is_white (c : ascii) : bool :=
  let n := nat_of_ascii c in
  existsb (Nat.eqb n) (9 :: 10 :: 11 :: 12 :: 13 :: 32 :: 160 :: nil)%nat.

Fixpoint trim_start (s : list ascii) : list ascii :=
  match s with
  | c :: s' => if is_white c then trim_start s' else s
  | nil => nil
  end.

Definition trim (s : list ascii) : list ascii :=
  rev (trim_start (rev (trim_start s))).

(** The value of a digit in the given radix, if it is one. *)
Definition digit_value (radix : Z) (c : ascii) : option Z :=
  let n := Z.of_nat (nat_of_ascii c) in
  let v :=
    if (48 <=? n) && (n <=? 57) then Some (n - 48)
    else if (97 <=? n) && (n <=? 102) then Some (n - 87)
    else if (65 <=? n) && (n <=? 70) then Some (n - 55)
    else None in
  match v with
  | Some d => if d <? radix then Some d else None
  | None => None
  end.

(** Reads the longest prefix of digits: the value accumulated onto
    [acc], the number of digits read, and the rest of the input. *)
Fixpoint read_digits (radix acc : Z) (count : nat) (s : list ascii)
  : Z * nat * list ascii :=
  match s with
  | c :: s' =>
      match digit_value radix c with
      | Some d => read_digits radix (acc * radix + d) (S count) s'
      | None => (acc, count, s)
      end
  | nil => (acc, count, s)
  end.

(** The binary64 value nearest to [m * 10^e] for [m >= 0], ties to
    even, with the given sign.  For a negative exponent the quotient by
    [10^k] is taken with at least 63 significant bits and rounded once,
    the remainder deciding on which side of the midpoint it lies. *)
Definition round_decimal (neg : bool) (m e : Z) : number :=
  match m with
  | Zpos _ =>
      match e with
      | Zneg k =>
          let d := 10 ^ Zpos k in
          let s := Z.log2 d + 64 in
          let '(q, r) := Z.div_eucl (Z.shiftl m s) d in
          binary_round_aux prec emax neg q (- s) (new_location d r)
      | _ => binary_normalize prec emax (if neg then - (m * 10 ^ e) else m * 10 ^ e) 0 neg
      end
  | _ => S754_zero neg
  end.

(** ExponentPart (optional), then end of input. *)
Definition read_exponent (neg : bool) (m e : Z) (s : list ascii) : number :=
  match s with
  | nil => round_decimal neg m e
  | c :: s' =>
      if (Ascii.eqb c "e" || Ascii.eqb c "E")%char then
        let '(eneg, s'') :=
          match s' with
          | "+"%char :: t => (false, t)
          | "-"%char :: t => (true, t)
          | _ => (false, s')
          end in
        match read_digits 10 0 0 s'' with
        | (_, O, _) => NaN
        | (x, _, nil) => round_decimal neg m (e + (if eneg then - x else x))
        | _ => NaN
        end
      else NaN
  end.

(** StrUnsignedDecimalLiteral: [Infinity], [d.d], [.d] or [d], the last
    three with an optional exponent. *)
Definition read_unsigned (neg : bool) (s : list ascii) : number :=
  if decide (s = list_ascii_of_string "Infinity") then Infinity neg
  else
    let '(ip, ni, r1) := read_digits 10 0 0 s in
    match r1 with
    | "."%char :: r1' =>
        let '(m, nf, r2) := read_digits 10 ip 0 r1' in
        match ni, nf with
        | O, O => NaN
        | _, _ => read_exponent neg m (- Z.of_nat nf) r2
        end
    | _ =>
        match ni with
        | O => NaN
        | _ => read_exponent neg ip 0 r1
        end
    end.

(** NonDecimalIntegerLiteral: [0x], [0o] or [0b] and at least one
    digit of that radix, to the end of the input; never signed. *)
Definition read_radix (s : list ascii) : option number :=
  match s with
  | "0"%char :: p :: s' =>
      let radix :=
        if (Ascii.eqb p "x" || Ascii.eqb p "X")%char then Some 16
        else if (Ascii.eqb p "o" || Ascii.eqb p "O")%char then Some 8
        else if (Ascii.eqb p "b" || Ascii.eqb p "B")%char then Some 2
        else None in
      match radix with
      | Some b =>
          match read_digits b 0 0 s' with
          | (_, O, _) => Some NaN
          | (v, _, nil) => Some (of_Z v)
          | _ => Some NaN
          end
      | None => None
      end
  | _ => None
  end.

(** [Number(s)] for a string [s]. *)
Definition StringToNumber (str : string) : number :=
  match trim (list_ascii_of_string str) with
  | nil => S754_zero false
  | s =>
      match read_radix s with
      | Some n => n
      | None =>
          match s with
          | "+"%char :: t => read_unsigned false t
          | "-"%char :: t => read_unsigned true t
          | _ => read_unsigned false s
          end
      end
  end.

(** *** Values held in table cells and chart records

    A cell is a string or a number; reading a property that an object
    does not have gives [undefined], which is [None] here.  Objects
    used as records are finite maps from property names to values;
    properties inherited from [Object.prototype] are outside the
    model. *)
Inductive value :=
| VStr (s : string)
| VNum (n : number).

(** [typeof v === 'number'] and [typeof v === 'string']. *)
Definition is_number (v : option value) : bool :=
  match v with Some (VNum _) => true | _ => false end.

Definition is_string (v : option value) : bool :=
  match v with Some (VStr _) => true | _ => false end.

(** [Number(v)]: a number is itself, a string is converted,
    [undefined] gives [NaN]. *)
Definition Number (v : option value) : number :=
  match v with
  | Some (VNum n) => n
  | Some (VStr s) => StringToNumber s
  | None => NaN
  end.

(** [ToBoolean]: the empty string, both zeros and [NaN] are falsy. *)
Definition truthy (v : value) : bool :=
  match v with
  | VStr s => negb (String.eqb s "")
  | VNum n => truthy_number n
  end.

(** [v || d] *)
Definition or_else (v : option value) (d : value) : value :=
  match v with
  | Some x => if truthy x then x else d
  | None => d
  end.

(** [n || 0] on numbers. *)
Definition or_zero (n : number) : number :=
  if truthy_number n then n else S754_zero false.

(** An array element used as a property name: [undefined] becomes the
    name ["undefined"]. *)
Definition property_key (k : option string) : string :=
  default "undefined"%string k.

(** [`${n}`] for an array position [n]. *)
Definition position_to_string (n : nat) : string := pretty n.

End JS.

Export JS.

(* ===================================================================== *)
(** ** Plain objects: own properties and what Object.prototype adds *)
(* ===================================================================== *)

Module JSObject.

(** The property names every plain object inherits from
    [Object.prototype]. *)
Definition prototypeMembers : list string :=
  ["constructor"; "toString"; "toLocaleString"; "valueOf";
   "hasOwnProperty"; "isPrototypeOf"; "propertyIsEnumerable";
   "__defineGetter__"; "__defineSetter__";
   "__lookupGetter__"; "__lookupSetter__"; "__proto__"].

Definition inherited (key : string) : bool :=
  bool_decide (key ∈ prototypeMembers).

(** What reading a property can yield: [undefined], a string, a number,
    or the object found under one of the inherited names (a function;
    under [__proto__] the prototype itself). *)
Inductive any :=
| Undefined
| Str (s : string)
| Num (n : number)
| Inherited (member : string).

Definition ofValue (v : value) : any :=
  match v with
  | VStr s => Str s
  | VNum n => Num n
  end.

(** [obj[key]] on a plain object with the own properties [own]: an own
    property first, then the prototype. *)
Definition get {A : Type} (inject : A → any) (own : gmap string A)
    (key : string) : any :=
  match own !! key with
  | Some x => inject x
  | None => if inherited key then Inherited key else Undefined
  end.

(** [row[key]] on a table row, and [record[key]] on a chart record. *)
Definition getCell (row : gmap string value) (key : string) : any :=
  get ofValue row key.

Definition getField (record : gmap string any) (key : string) : any :=
  get id record key.

(** [key in obj] *)
Definition has {A : Type} (own : gmap string A) (key : string) : bool :=
  match own !! key with
  | Some _ => true
  | None => inherited key
  end.

(** [obj[key] = x].  An own property is updated; otherwise one is
    created, except under [__proto__], where the inherited setter runs
    and no property is stored.  (That setter makes an object the new
    prototype; the only object the code here assigns under that name
    is the prototype the object already has.) *)
Definition set {A : Type} (key : string) (x : A) (own : gmap string A)
  : gmap string A :=
  match own !! key with
  | Some _ => <[key := x]> own
  | None => if String.eqb key "__proto__" then own else <[key := x]> own
  end.

(** [typeof v === 'string'] *)
Definition isString (v : any) : bool :=
  match v with Str _ => true | _ => false end.

(** [Number(v)]: an object converts to [NaN]. *)
Definition toNumber (v : any) : number :=
  match v with
  | Num n => n
  | Str s => StringToNumber s
  | Undefined | Inherited _ => NaN
  end.

(** [ToBoolean]: an object is truthy. *)
Definition truthyAny (v : any) : bool :=
  match v with
  | Undefined => false
  | Str s => negb (String.eqb s "")
  | Num n => truthy_number n
  | Inherited _ => true
  end.

(** [v || d] *)
Definition orElse (v d : any) : any := if truthyAny v then v else d.

(** An array element that may be missing, as a value. *)
Definition element (x : option string) : any :=
  match x with
  | Some s => Str s
  | None => Undefined
  end.

(** The integer a number is, if it is one; both zeros are 0. *)
Definition integerValue (x : number) : option Z :=
  match x with
  | S754_zero _ => Some 0%Z
  | S754_finite neg m e =>
      let magnitude :=
        match e with
        | Zneg k =>
            if (Zpos m mod 2 ^ Zpos k =? 0)%Z
            then Some (Zpos m / 2 ^ Zpos k)%Z else None
        | _ => Some (Zpos m * 2 ^ e)%Z
        end in
      (λ z, if neg then (- z)%Z else z) <$> magnitude
  | _ => None
  end.

End JSObject.

Export JSObject.

(* ===================================================================== *)
(** ** Chart kinds and suitability verdicts (shared by both variants) *)
(* ===================================================================== *)

Module Chart.

(** ['pie' | 'bar' | 'line' | 'area'] *)
Inductive ChartType := pie | bar | line | area.

#[export] Instance ChartType_eq_dec : EqDecision ChartType.
Proof. solve_decision. Defined.

(** [{ suitable: boolean; reason: string }] *)
Record Suitability := { suitable : bool; reason : string }.

(** [xs.includes(x)] *)
Definition includes (xs : list ChartType) (x : ChartType) : bool :=
  bool_decide (x ∈ xs).

End Chart.

Export Chart.

(* ===================================================================== *)
(** ** dataTypeDetection.ts, manual-mode variant *)
(* ===================================================================== *)

Module ManualMode.

Inductive DataType := category | timeseries | multiseries.

#[export] Instance DataType_eq_dec : EqDecision DataType.
Proof. solve_decision. Defined.

Record DataTypeInfo := {
  type : DataType;
  recommendedCharts : list ChartType;
  disabledCharts : list ChartType;
  description : string;
  xAxisLabel : string;
  yAxisLabel : string;
}.

Definition getDataTypeInfo (dataType : DataType) : DataTypeInfo :=
  match dataType with
  | category =>
      {| type := category;
         recommendedCharts := [pie; bar];
         disabledCharts := [line; area];
         description := "Data kategori - cocok untuk melihat proporsi atau perbandingan antar kategori";
         xAxisLabel := "Kategori";
         yAxisLabel := "Nilai" |}
  | timeseries =>
      {| type := timeseries;
         recommendedCharts := [line; area; bar];
         disabledCharts := [pie];
         description := "Data time series - cocok untuk melihat tren atau perubahan dari waktu ke waktu";
         xAxisLabel := "Waktu/Urutan";
         yAxisLabel := "Nilai" |}
  | multiseries =>
      {| type := multiseries;
         recommendedCharts := [line; area; bar];
         disabledCharts := [pie];
         description := "Data multi-series - cocok untuk membandingkan beberapa metrik sekaligus";
         xAxisLabel := "Label";
         yAxisLabel := "Nilai" |}
  end.

Definition getChartSuitability (chartType : ChartType) (dataType : DataType)
  : Suitability :=
  match dataType, chartType with
  | category, pie => {| suitable := true; reason := "Ideal untuk melihat proporsi/persentase tiap kategori" |}
  | category, bar => {| suitable := true; reason := "Bagus untuk membandingkan nilai antar kategori" |}
  | category, line => {| suitable := false; reason := "Tidak cocok - data kategori tidak memiliki kontinuitas waktu" |}
  | category, area => {| suitable := false; reason := "Tidak cocok - data kategori tidak memiliki kontinuitas waktu" |}
  | timeseries, pie => {| suitable := false; reason := "Tidak cocok - pie chart untuk proporsi, bukan tren waktu" |}
  | timeseries, bar => {| suitable := true; reason := "Bisa digunakan untuk melihat perubahan per periode" |}
  | timeseries, line => {| suitable := true; reason := "Ideal untuk melihat tren dan pola perubahan" |}
  | timeseries, area => {| suitable := true; reason := "Bagus untuk melihat volume dan akumulasi" |}
  | multiseries, pie => {| suitable := false; reason := "Tidak cocok - pie chart hanya untuk 1 series" |}
  | multiseries, bar => {| suitable := true; reason := "Bagus untuk membandingkan nilai antar series" |}
  | multiseries, line => {| suitable := true; reason := "Ideal untuk membandingkan tren multiple series" |}
  | multiseries, area => {| suitable := true; reason := "Bagus untuk melihat kontribusi tiap series (stacked)" |}
  end.

Definition isChartEnabled (chartType : ChartType) (dataType : DataType) : bool :=
  let info := getDataTypeInfo dataType in
  negb (includes (disabledCharts info) chartType).

End ManualMode.

(* ===================================================================== *)
(** ** dataTypeDetection.ts, auto-detecting variant *)
(* ===================================================================== *)

Module Detection.

Inductive DataType := auto | category | timeseries | multiseries.

Inductive Confidence := high | medium | low.

#[export] Instance DataType_eq_dec : EqDecision DataType.
Proof. solve_decision. Defined.

#[export] Instance Confidence_eq_dec : EqDecision Confidence.
Proof. solve_decision. Defined.

Record DataTypeInfo := {
  type : DataType;
  confidence : Confidence;
  recommendedCharts : list ChartType;
  reason : string;
}.

Record TableData := {
  name : string;
  columns : list string;
  rows : list (gmap string value);
}.

(** The test the detector applies to a cell:
    [typeof val === 'number' || !isNaN(Number(val))]. *)
Definition looksNumeric (val : option value) : bool :=
  is_number val || negb (isNaN (Number val)).

(** [rows.map(row => row[columns[0]])] *)
Definition firstColValues (data : TableData) : list (option value) :=
  map (λ row : gmap string value, row !! property_key (columns data !! 0%nat))
      (rows data).

(** [columns.slice(1).every(col => rows.every(row => ...))] *)
Definition otherColsNumeric (data : TableData) : bool :=
  forallb (λ col, forallb (λ row : gmap string value, looksNumeric (row !! col))
                          (rows data))
          (drop 1 (columns data)).

(** Case 3 of [detectDataType]: returns a result, or falls through. *)
Definition multiSeriesCase (data : TableData) : option DataTypeInfo :=
  if (1 <? length (rows data))%nat && (3 <=? length (columns data))%nat then
    let allNumeric := forallb looksNumeric (firstColValues data) in
    if otherColsNumeric data then
      Some {| type := multiseries;
              confidence := high;
              recommendedCharts := [line; area; bar];
              reason := "Multiple series untuk dibandingkan - cocok untuk melihat perbedaan tren" |}
    else None
  else None.

Definition detectDataType (data : TableData) : DataTypeInfo :=
  (* Case 1: single row with multiple columns *)
  if (length (rows data) =? 1)%nat && (1 <? length (columns data))%nat then
    {| type := category;
       confidence := high;
       recommendedCharts := [pie; bar];
       reason := "1 baris dengan banyak kategori - cocok untuk melihat proporsi/persentase" |}
  (* Case 2: multiple rows with 2 columns *)
  else if (1 <? length (rows data))%nat && (length (columns data) =? 2)%nat then
    let hasNumericFirstCol := forallb looksNumeric (firstColValues data) in
    if hasNumericFirstCol then
      {| type := timeseries;
         confidence := high;
         recommendedCharts := [line; area; bar];
         reason := "Data berurutan dengan 1 metrik - cocok untuk melihat tren" |}
    else
      {| type := timeseries;
         confidence := medium;
         recommendedCharts := [line; area; bar];
         reason := "Data dengan label dan 1 metrik - cocok untuk melihat perubahan" |}
  else
    (* Case 3: multiple rows with 3+ columns *)
    match multiSeriesCase data with
    | Some info => info
    | None =>
        (* Case 4: multiple rows, 1 column *)
        if (1 <? length (rows data))%nat && (length (columns data) =? 1)%nat then
          {| type := category;
             confidence := low;
             recommendedCharts := [bar];
             reason := "Data sederhana dengan 1 kolom" |}
        else
          (* Default fallback *)
          {| type := multiseries;
             confidence := low;
             recommendedCharts := [bar; line];
             reason := "Struktur data kompleks - pilih visualisasi yang sesuai" |}
    end.

Record Recommendation := {
  recommended : list ChartType;
  notRecommended : list ChartType;
}.

Definition allCharts : list ChartType := [pie; bar; line; area].

Definition getRecommendedCharts (dataType : DataType) : Recommendation :=
  let recommended :=
    match dataType with
    | category => [pie; bar]
    | timeseries => [line; area; bar]
    | multiseries => [line; area; bar]
    | _ => allCharts
    end in
  let notRecommended :=
    List.filter (λ chart, negb (includes recommended chart)) allCharts in
  {| recommended := recommended; notRecommended := notRecommended |}.

Definition getChartSuitability (chartType : ChartType) (dataType : DataType)
  : Suitability :=
  match dataType, chartType with
  | auto, pie => {| suitable := true; Chart.reason := "Auto-detect akan menentukan kesesuaian" |}
  | auto, bar => {| suitable := true; Chart.reason := "Auto-detect akan menentukan kesesuaian" |}
  | auto, line => {| suitable := true; Chart.reason := "Auto-detect akan menentukan kesesuaian" |}
  | auto, area => {| suitable := true; Chart.reason := "Auto-detect akan menentukan kesesuaian" |}
  | category, pie => {| suitable := true; Chart.reason := "Ideal untuk melihat proporsi/persentase tiap kategori" |}
  | category, bar => {| suitable := true; Chart.reason := "Bagus untuk membandingkan nilai antar kategori" |}
  | category, line => {| suitable := false; Chart.reason := "Tidak cocok - data tidak memiliki kontinuitas waktu" |}
  | category, area => {| suitable := false; Chart.reason := "Tidak cocok - data tidak memiliki kontinuitas waktu" |}
  | timeseries, pie => {| suitable := false; Chart.reason := "Tidak cocok - pie chart untuk proporsi, bukan tren waktu" |}
  | timeseries, bar => {| suitable := true; Chart.reason := "Bisa digunakan untuk melihat perubahan per periode" |}
  | timeseries, line => {| suitable := true; Chart.reason := "Ideal untuk melihat tren dan pola perubahan" |}
  | timeseries, area => {| suitable := true; Chart.reason := "Bagus untuk melihat volume dan akumulasi" |}
  | multiseries, pie => {| suitable := false; Chart.reason := "Tidak cocok - pie chart hanya untuk 1 series" |}
  | multiseries, bar => {| suitable := true; Chart.reason := "Bagus untuk membandingkan nilai antar series" |}
  | multiseries, line => {| suitable := true; Chart.reason := "Ideal untuk membandingkan tren multiple series" |}
  | multiseries, area => {| suitable := true; Chart.reason := "Bagus untuk melihat kontribusi tiap series (stacked)" |}
  end.

Definition getDataTypeExplanation (dataType : DataType) : string :=
  match dataType with
  | category => "Data kategori - cocok untuk melihat proporsi atau perbandingan antar kategori"
  | timeseries => "Data time series - cocok untuk melihat tren atau perubahan dari waktu ke waktu"
  | multiseries => "Data multi-series - cocok untuk membandingkan beberapa metrik sekaligus"
  | _ => "Pilih tipe data sesuai dengan kebutuhan visualisasi Anda"
  end.

End Detection.

(* ===================================================================== *)
(** ** colorThemes.ts *)
(* ===================================================================== *)

Module ColorThemes.

Record ColorTheme := { name : string; colors : list string }.

Definition COLOR_THEMES : list ColorTheme :=
  [ {| name := "Default";
       colors := ["#3B82F6"; "#10B981"; "#F59E0B"; "#EF4444";
                  "#8B5CF6"; "#EC4899"; "#14B8A6"; "#F97316"] |};
    {| name := "Ocean";
       colors := ["#0EA5E9"; "#06B6D4"; "#14B8A6"; "#10B981";
                  "#22C55E"; "#84CC16"; "#A3E635"; "#BEF264"] |};
    {| name := "Sunset";
       colors := ["#F97316"; "#FB923C"; "#FBBF24"; "#FCD34D";
                  "#FDE047"; "#FEF08A"; "#FEF9C3"; "#FFFBEB"] |};
    {| name := "Purple";
       colors := ["#9333EA"; "#A855F7"; "#C084FC"; "#D8B4FE";
                  "#E9D5FF"; "#F3E8FF"; "#FAF5FF"; "#FEFCE8"] |};
    {| name := "Forest";
       colors := ["#065F46"; "#047857"; "#059669"; "#10B981";
                  "#34D399"; "#6EE7B7"; "#A7F3D0"; "#D1FAE5"] |};
    {| name := "Fire";
       colors := ["#991B1B"; "#DC2626"; "#EF4444"; "#F87171";
                  "#FCA5A5"; "#FECACA"; "#FEE2E2"; "#FEF2F2"] |};
    {| name := "Royal";
       colors := ["#1E3A8A"; "#1E40AF"; "#2563EB"; "#3B82F6";
                  "#60A5FA"; "#93C5FD"; "#BFDBFE"; "#DBEAFE"] |};
    {| name := "Pastel";
       colors := ["#FBCFE8"; "#F9A8D4"; "#F472B6"; "#EC4899";
                  "#DB2777"; "#BE185D"; "#9D174D"; "#831843"] |};
    {| name := "Neon";
       colors := ["#FF00FF"; "#00FFFF"; "#00FF00"; "#FFFF00";
                  "#FF6600"; "#FF0066"; "#6600FF"; "#00FF66"] |};
    {| name := "Monochrome";
       colors := ["#1F2937"; "#374151"; "#4B5563"; "#6B7280";
                  "#9CA3AF"; "#D1D5DB"; "#E5E7EB"; "#F3F4F6"] |} ].

(** [colors[index % colors.length]] for a number [index].  The
    remainder of an integer by the length is an integer with the sign
    of [index]; a zero remainder of a negative index is [-0], which
    names element 0 like [+0].  The remainder of any other number is a
    fraction or [NaN], and so is every remainder by 0.  An array has
    elements at the non-negative integers below its length only. *)
Definition getColorForIndex (index : number) (colors : list string)
  : option string :=
  match integerValue index with
  | Some z =>
      if (length colors =? 0)%nat then None
      else
        let r := Z.rem z (Z.of_nat (length colors)) in
        if (r <? 0)%Z then None else colors !! Z.to_nat r
  | None => None
  end.

(** [COLOR_THEMES.find(theme => theme.name === themeName)] *)
Definition getThemeByName (themeName : string) : option ColorTheme :=
  List.find (λ theme, String.eqb (name theme) themeName) COLOR_THEMES.

End ColorThemes.

(* ===================================================================== *)
(** ** ChartDisplay.tsx: [prepareChartData] *)
(* ===================================================================== *)

Module ChartDisplay.

Import ManualMode.

Record TableData := {
  name : string;
  columns : list string;
  rows : list (gmap string value);
  colors : option (list string);
  dataType : option DataType;
}.

Definition DEFAULT_COLORS : list string :=
  ["#3B82F6"; "#10B981"; "#F59E0B"; "#EF4444";
   "#8B5CF6"; "#EC4899"; "#14B8A6"; "#F97316"].

(** [data.colors || DEFAULT_COLORS]: an array, even an empty one, is
    truthy. *)
Definition COLORS (data : TableData) : list string :=
  default DEFAULT_COLORS (colors data).

(** [{ name, value, color }], the record of one pie slice or bar. *)
Record Slice := {
  slice_name : string;
  slice_value : any;
  slice_color : option string;
}.

(** An element of the array [prepareChartData] returns. *)
Inductive ChartEntry :=
| SliceEntry (s : Slice)
| ChartRow (fields : gmap string any).

(** [typeof value === 'string' ? Number(value) || 0 : value || 0] *)
Definition plotValue (v : any) : any :=
  if isString v then Num (or_zero (toNumber v))
  else orElse v (Num (S754_zero false)).

(** The body of the [forEach] of the multi-series and default
    branches: the value stored under [col]. *)
Definition seriesValue (v : any) : any :=
  if isString v && negb (isNaN (toNumber v)) then Num (toNumber v)
  else orElse v (Str "").

(** [data.columns.forEach(col => chartRow[col] = f(row[col]))] on the
    object [chartRow]. *)
Definition fillColumns (f : any → any) (cols : list string)
    (row : gmap string value) (chartRow : gmap string any) : gmap string any :=
  foldl (λ acc col, set col (f (getCell row col)) acc) chartRow cols.

(** [data.rows[0][col]]; the branch that reads it is taken only when
    there is exactly one row. *)
Definition firstRowCell (rows : list (gmap string value)) (col : string) : any :=
  match rows !! 0%nat with
  | Some row => getCell row col
  | None => Undefined
  end.

Definition categorySlice (data : TableData) (index : nat) (col : string) : Slice :=
  let value := firstRowCell (rows data) col in
  {| slice_name := col;
     slice_value := plotValue value;
     slice_color := COLORS data !! (index `mod` length (COLORS data))%nat |}.

Definition timeSeriesRow (data : TableData) (rowIndex : nat)
    (row : gmap string value) : gmap string any :=
  let chartRow : gmap string any :=
    <["indexLabel" := Str ("Baris " +:+ position_to_string (rowIndex + 1))]>
      (<["index" := Num (of_nat (rowIndex + 1))]> ∅) in
  fillColumns plotValue (columns data) row chartRow.

Definition seriesRow (data : TableData) (row : gmap string value)
  : gmap string any :=
  fillColumns seriesValue (columns data) row ∅.

Definition prepareChartData (data : TableData) : list ChartEntry :=
  let dataType := default category (dataType data) in
  if bool_decide (dataType = category)
     && ((length (rows data) =? 1)%nat && (1 <? length (columns data))%nat) then
    (* CATEGORY: single row, multiple columns -> transpose *)
    imap (λ index col, SliceEntry (categorySlice data index col)) (columns data)
  else if bool_decide (dataType = timeseries) then
    (* TIME SERIES: index-based x-axis *)
    imap (λ rowIndex row, ChartRow (timeSeriesRow data rowIndex row)) (rows data)
  else if bool_decide (dataType = multiseries) then
    (* MULTI-SERIES *)
    (λ row, ChartRow (seriesRow data row)) <$> rows data
  else
    (* Default fallback *)
    (λ row, ChartRow (seriesRow data row)) <$> rows data.

(** What [renderChart] hands to the chart library, or the text it
    shows instead: the records, the property names read from them and
    the colours.  Sizes, grids, tooltips and legends are left out. *)
Inductive Rendering :=
| Message (text : string)
| PieOf (chartData : list ChartEntry) (dataKey : string)
    (fills : list any)
| CategoryBarsOf (chartData : list ChartEntry) (xKey dataKey : string)
    (fills : list any)
| SeriesOf (kind : ChartType) (chartData : list ChartEntry)
    (xKey : option string) (series : list (string * option string))
    (stackId : option string).

(** [entry.color] *)
Definition entryColor (entry : ChartEntry) : any :=
  match entry with
  | SliceEntry s => element (slice_color s)
  | ChartRow fields => getField fields "color"
  end.

(** [entry.color || COLORS[index % COLORS.length]] *)
Definition cellFill (data : TableData) (index : nat) (entry : ChartEntry) : any :=
  orElse (entryColor entry)
         (element (COLORS data !! (index `mod` length (COLORS data))%nat)).

(** [cols.map((col, index) => <Bar dataKey={col} fill={COLORS[index % COLORS.length]} />)] *)
Definition seriesOf (data : TableData) (cols : list string)
  : list (string * option string) :=
  imap (λ index col, (col, COLORS data !! (index `mod` length (COLORS data))%nat)) cols.

Definition renderChart (data : TableData) (chartType : ChartType) : Rendering :=
  let chartData := prepareChartData data in
  let dataType := default category (dataType data) in
  match chartType with
  | pie =>
      if bool_decide (dataType ≠ category) then
        Message "Pie chart hanya tersedia untuk tipe data Kategori"
      else PieOf chartData "value" (imap (cellFill data) chartData)
  | bar =>
      if bool_decide (dataType = category) then
        CategoryBarsOf chartData "name" "value" (imap (cellFill data) chartData)
      else if bool_decide (dataType = timeseries) then
        SeriesOf bar chartData (Some "indexLabel") (seriesOf data (columns data)) None
      else
        SeriesOf bar chartData (columns data !! 0%nat)
                 (seriesOf data (drop 1 (columns data))) None
  | line =>
      if bool_decide (dataType = category) then
        Message "Line chart tidak cocok untuk tipe data Kategori"
      else if bool_decide (dataType = timeseries) then
        SeriesOf line chartData (Some "indexLabel") (seriesOf data (columns data)) None
      else
        SeriesOf line chartData (columns data !! 0%nat)
                 (seriesOf data (drop 1 (columns data))) None
  | area =>
      if bool_decide (dataType = category) then
        Message "Area chart tidak cocok untuk tipe data Kategori"
      else if bool_decide (dataType = timeseries) then
        SeriesOf area chartData (Some "indexLabel") (seriesOf data (columns data)) None
      else
        SeriesOf area chartData (columns data !! 0%nat)
                 (seriesOf data (drop 1 (columns data))) (Some "1")
  end.

(** [chartData.length === 0]: the notice under the chart. *)
Definition noDataNotice (data : TableData) : bool :=
  (length (prepareChartData data) =? 0)%nat.

End ChartDisplay.

(* ===================================================================== *)
(** ** ChartDisplay.tsx, the earlier variant without a stored shape *)
(* ===================================================================== *)

Module LegacyChartDisplay.

Import ChartDisplay.

Record TableData := {
  name : string;
  columns : list string;
  rows : list (gmap string value);
  colors : option (list string);
}.

Definition COLORS (data : TableData) : list string :=
  default DEFAULT_COLORS (colors data).

Definition isSingleRowMultipleColumns (data : TableData) : bool :=
  (length (rows data) =? 1)%nat && (1 <? length (columns data))%nat.

(** The transposed record of one column. *)
Definition columnSlice (data : TableData) (index : nat) (col : string) : Slice :=
  let value := firstRowCell (rows data) col in
  {| slice_name := col;
     slice_value := plotValue value;
     slice_color := COLORS data !! (index `mod` length (COLORS data))%nat |}.

Definition prepareChartData (data : TableData) : list ChartEntry :=
  if isSingleRowMultipleColumns data then
    imap (λ index col, SliceEntry (columnSlice data index col)) (columns data)
  else
    (λ row, ChartRow (fillColumns seriesValue (columns data) row ∅)) <$> rows data.

Section PieData.

(** The runtime's conversion of a number to a string, and the text it
    gives for the inherited object of a given name. *)
Variable numberToString : number → string.
Variable objectToString : string → string.

(** [String(v)] *)
Definition toString (v : any) : string :=
  match v with
  | Undefined => "undefined"
  | Str s => s
  | Num n => numberToString n
  | Inherited member => objectToString member
  end.

(** [data.columns[1] || data.columns[0]] *)
Definition valueColumn (data : TableData) : option string :=
  match columns data !! 1%nat with
  | Some col => if String.eqb col "" then columns data !! 0%nat else Some col
  | None => columns data !! 0%nat
  end.

Definition preparePieData (data : TableData) : list Slice :=
  if isSingleRowMultipleColumns data then
    imap (columnSlice data) (columns data)
  else
    let labelColumn := columns data !! 0%nat in
    imap (λ index (row : gmap string value),
            let value := getCell row (property_key (valueColumn data)) in
            {| slice_name :=
                 toString (orElse (getCell row (property_key labelColumn))
                                  (Str "Unknown"));
               slice_value := plotValue value;
               slice_color := COLORS data !! (index `mod` length (COLORS data))%nat |})
         (rows data).

(** [chartType === 'pie' ? preparePieData() : prepareChartData()] *)
Definition chartData (data : TableData) (chartType : ChartType) : list ChartEntry :=
  match chartType with
  | pie => SliceEntry <$> preparePieData data
  | _ => prepareChartData data
  end.

End PieData.

End LegacyChartDisplay.

(* ===================================================================== *)
(** ** DataTable.tsx *)
(* ===================================================================== *)

Module DataTable.

Record TableData := {
  name : string;
  columns : list string;
  rows : list (gmap string value);
}.

(** The header cells: [data.columns.map(column => <th>{column}</th>)]. *)
Definition headerCells (data : TableData) : list string := columns data.

(** The content of one body cell: [row[column] || '-']. *)
Definition cellContent (row : gmap string value) (column : string) : any :=
  orElse (getCell row column) (Str "-").

(** The body: one list of cells for each row. *)
Definition bodyCells (data : TableData) : list (list any) :=
  (λ row, cellContent row <$> columns data) <$> rows data.

End DataTable.

(* ===================================================================== *)
(** ** App.tsx: the form and its handlers *)
(* ===================================================================== *)

Module App.

Import ColorThemes.

(** [s.trim()] *)
Definition string_trim (s : string) : string :=
  string_of_list_ascii (trim (list_ascii_of_string s)).

(** [s.trim() !== ''] fails. *)
Definition isBlank (s : string) : bool := String.eqb (string_trim s) "".

(** [a[i] = x] on a copy of the array [a]: replaces an element, or
    appends at the end.  Writing further out makes the array sparse,
    which is outside the model ([None]). *)
Definition arraySet {A : Type} (a : list A) (i : nat) (x : A) : option (list A) :=
  if (i <? length a)%nat then Some (<[i := x]> a)
  else if (i =? length a)%nat then Some (a ++ [x])
  else None.

Module Table.

Record TableData := {
  name : string;
  columns : list string;
  rows : list (gmap string value);
  colors : option (list any);
  dataType : option Detection.DataType;
}.

End Table.

(** ['table' | 'pie' | 'bar' | 'line' | 'area'] *)
Inductive ViewType := table | chart (kind : ChartType).

(** The state variables of the component. *)
Record FormState := {
  tableName : string;
  columns : list string;
  rows : list (gmap string value);
  tableData : option Table.TableData;
  viewType : ViewType;
  selectedTheme : string;
  customColors : gmap string string;
  useCustomColors : bool;
  dataTypeMode : Detection.DataType;
  detectedDataType : option Detection.DataType;
}.

Definition initialState : FormState :=
  {| tableName := "";
     columns := [""];
     rows := [∅];
     tableData := None;
     viewType := table;
     selectedTheme := "Default";
     customColors := ∅;
     useCustomColors := false;
     dataTypeMode := Detection.auto;
     detectedDataType := None |}.

(** [setColumns], [setRows] and [setCustomColors]. *)
Definition setColumns (cols : list string) (st : FormState) : FormState :=
  {| tableName := tableName st; columns := cols; rows := rows st;
     tableData := tableData st; viewType := viewType st;
     selectedTheme := selectedTheme st; customColors := customColors st;
     useCustomColors := useCustomColors st; dataTypeMode := dataTypeMode st;
     detectedDataType := detectedDataType st |}.

Definition setRows (rs : list (gmap string value)) (st : FormState) : FormState :=
  {| tableName := tableName st; columns := columns st; rows := rs;
     tableData := tableData st; viewType := viewType st;
     selectedTheme := selectedTheme st; customColors := customColors st;
     useCustomColors := useCustomColors st; dataTypeMode := dataTypeMode st;
     detectedDataType := detectedDataType st |}.

Definition setCustomColors (cc : gmap string string) (st : FormState) : FormState :=
  {| tableName := tableName st; columns := columns st; rows := rows st;
     tableData := tableData st; viewType := viewType st;
     selectedTheme := selectedTheme st; customColors := cc;
     useCustomColors := useCustomColors st; dataTypeMode := dataTypeMode st;
     detectedDataType := detectedDataType st |}.

Definition addColumn (st : FormState) : FormState :=
  setColumns (columns st ++ [""]) st.

Definition removeColumn (index : nat) (st : FormState) : FormState :=
  let columnName := property_key (columns st !! index) in
  let newColumns := delete index (columns st) in
  let newRows := (λ row : gmap string value, delete columnName row) <$> rows st in
  let newCustomColors := delete columnName (customColors st) in
  setCustomColors newCustomColors (setRows newRows (setColumns newColumns st)).

(** [if (old in newRow) { newRow[value] = newRow[old]; delete newRow[old] }]
    on a copy of the row.  When [old] is found on the prototype only,
    the inherited object is copied into the row, which then no longer
    holds strings and numbers only: outside the model ([None]). *)
Definition renameCell (old value : string) (row : gmap string JS.value)
  : option (gmap string JS.value) :=
  match row !! old with
  | Some v => Some (delete old (set value v row))
  | None => if inherited old then None else Some row
  end.

(** The same under the test [if (customColors[old])], which an empty
    string fails and an inherited object passes. *)
Definition renameColor (old value : string) (cc : gmap string string)
  : option (gmap string string) :=
  match cc !! old with
  | Some c => Some (if String.eqb c "" then cc else delete old (set value c cc))
  | None => if inherited old then None else Some cc
  end.

Definition updateColumn (index : nat) (value : string) (st : FormState)
  : option FormState :=
  let oldColumnName := columns st !! index in
  newColumns ← arraySet (columns st) index value;
  let st1 := setColumns newColumns st in
  match oldColumnName with
  | Some old =>
      if negb (String.eqb old "") && negb (String.eqb old value) then
        newRows ← mapM (renameCell old value) (rows st);
        newCustomColors ← renameColor old value (customColors st);
        Some (setCustomColors newCustomColors (setRows newRows st1))
      else Some st1
  | None => Some st1
  end.

Definition updateColumnColor (columnName color : string) (st : FormState) : FormState :=
  setCustomColors (<[columnName := color]> (customColors st)) st.

Definition addRow (st : FormState) : FormState :=
  setRows (rows st ++ [∅]) st.

Definition removeRow (index : nat) (st : FormState) : FormState :=
  setRows (delete index (rows st)) st.

Definition updateCell (rowIndex : nat) (columnName value : string) (st : FormState)
  : option FormState :=
  let old : gmap string JS.value := default ∅ (rows st !! rowIndex) in
  newRows ← arraySet (rows st) rowIndex (<[columnName := VStr value]> old);
  Some (setRows newRows st).

(** [theme?.colors || COLOR_THEMES[0].colors] for the selected theme. *)
Definition themeColors (st : FormState) : list string :=
  match List.find (λ t, String.eqb (name t) (selectedTheme st)) COLOR_THEMES with
  | Some theme => colors theme
  | None => default [] (colors <$> COLOR_THEMES !! 0%nat)
  end.

Definition getColors (st : FormState) : list any :=
  if useCustomColors st then
    imap (λ index col,
            orElse (get Str (customColors st) col)
                   (element (themeColors st
                             !! (index `mod` length (themeColors st))%nat)))
         (columns st)
  else Str <$> themeColors st.

Definition resetForm (st : FormState) : FormState := initialState.

Section Generate.

(** The runtime's conversion of a number to a string. *)
Variable numberToString : number → string.

(** [row[key] && String(row[key]).trim() !== ''] *)
Definition cellFilled (v : value) : bool :=
  truthy v
  && negb (isBlank match v with VStr s => s | VNum n => numberToString n end).

(** [Object.keys(row).some(key => ...)] *)
Definition rowFilled (row : gmap string value) : bool :=
  existsb (λ kv : string * value, cellFilled kv.2) (map_to_list row).

Definition validColumns (st : FormState) : list string :=
  List.filter (λ col, negb (isBlank col)) (columns st).

Definition validRows (st : FormState) : list (gmap string value) :=
  List.filter rowFilled (rows st).

(** What a click on the generate button does: an alert, or new state. *)
Inductive Outcome :=
| Alert (message : string)
| Updated (st : FormState).

Definition generateTable (st : FormState) : Outcome :=
  if isBlank (tableName st) || (length (validColumns st) =? 0)%nat then
    Alert "Mohon isi nama tabel dan minimal satu kolom"
  else if (length (validRows st) =? 0)%nat then
    Alert "Mohon isi minimal satu baris data"
  else
    let tempData :=
      {| Detection.name := tableName st;
         Detection.columns := validColumns st;
         Detection.rows := validRows st |} in
    let detection := Detection.detectDataType tempData in
    let finalDataType :=
      match dataTypeMode st with
      | Detection.auto => Detection.type detection
      | mode => mode
      end in
    Updated
      {| tableName := tableName st;
         columns := columns st;
         rows := rows st;
         tableData :=
           Some {| Table.name := tableName st;
                   Table.columns := validColumns st;
                   Table.rows := validRows st;
                   Table.colors := Some (getColors st);
                   Table.dataType := Some finalDataType |};
         viewType := table;
         selectedTheme := selectedTheme st;
         customColors := customColors st;
         useCustomColors := useCustomColors st;
         dataTypeMode := dataTypeMode st;
         detectedDataType := Some (Detection.type detection) |}.

End Generate.

(** [getChartRecommendations] *)
Definition getChartRecommendations (st : FormState) : Detection.Recommendation :=
  match tableData st with
  | None => {| Detection.recommended := []; Detection.notRecommended := [] |}
  | Some data =>
      Detection.getRecommendedCharts (default Detection.auto (Table.dataType data))
  end.

End App.

(* ===================================================================== *)
(** ** Sample datasets *)
(* ===================================================================== *)

Module Samples.

Import Detection.

(** One row, three columns. *)
Definition sales : TableData :=
  {| name := "Sales";
     columns := ["Jan"; "Feb"; "Mar"];
     rows := [ {[ "Jan" := VStr "10"; "Feb" := VStr "20"; "Mar" := VStr "15" ]} ] |}.

(** Two rows, two columns, numeric first column. *)
Definition revenue : TableData :=
  {| name := "Revenue";
     columns := ["Day"; "Revenue"];
     rows := [ {[ "Day" := VStr "1"; "Revenue" := VStr "100" ]};
               {[ "Day" := VStr "2"; "Revenue" := VStr "150" ]} ] |}.

(** Two rows, two columns, the first column left blank in the form. *)
Definition blankFirstColumn : TableData :=
  {| name := "Revenue";
     columns := ["Day"; "Revenue"];
     rows := [ {[ "Day" := VStr ""; "Revenue" := VStr "100" ]};
               {[ "Day" := VStr ""; "Revenue" := VStr "150" ]} ] |}.

(** Two rows, three columns, textual first column. *)
Definition regions : TableData :=
  {| name := "Regions";
     columns := ["Region"; "Q1"; "Q2"];
     rows := [ {[ "Region" := VStr "East"; "Q1" := VStr "5"; "Q2" := VStr "7" ]};
               {[ "Region" := VStr "West"; "Q1" := VStr "3"; "Q2" := VStr "9" ]} ] |}.

(** The same, with another first column. *)
Definition regionsRenamed : TableData :=
  {| name := "Regions";
     columns := ["Area"; "Q1"; "Q2"];
     rows := [ {[ "Area" := VStr "1"; "Q1" := VStr "5"; "Q2" := VStr "7" ]};
               {[ "Area" := VStr "2"; "Q1" := VStr "3"; "Q2" := VStr "9" ]} ] |}.

(** Two rows, a single column. *)
Definition singleColumn : TableData :=
  {| name := "Scores";
     columns := ["Score"];
     rows := [ {[ "Score" := VStr "1" ]}; {[ "Score" := VStr "2" ]} ] |}.

(** Two rows, three columns, a textual metric. *)
Definition mixed : TableData :=
  {| name := "Mixed";
     columns := ["Region"; "Q1"; "Note"];
     rows := [ {[ "Region" := VStr "East"; "Q1" := VStr "5"; "Note" := VStr "ok" ]};
               {[ "Region" := VStr "West"; "Q1" := VStr "3"; "Note" := VStr "late" ]} ] |}.

(** No rows at all. *)
Definition noRows : TableData :=
  {| name := "Empty"; columns := ["A"; "B"]; rows := [] |}.

(** A dataset as [ChartDisplay] receives it: with a stored shape. *)
Definition withShape (d : TableData) (shape : ManualMode.DataType)
  : ChartDisplay.TableData :=
  {| ChartDisplay.name := name d;
     ChartDisplay.columns := columns d;
     ChartDisplay.rows := rows d;
     ChartDisplay.colors := None;
     ChartDisplay.dataType := Some shape |}.

(** Three columns whose first column holds years. *)
Definition yearly : TableData :=
  {| name := "Yearly";
     columns := ["Year"; "A"; "B"];
     rows := [ {[ "Year" := VStr "2020"; "A" := VStr "1"; "B" := VStr "2" ]};
               {[ "Year" := VStr "2021"; "A" := VStr "3"; "B" := VStr "n/a" ]} ] |}.

(** A column that is itself called [index]. *)
Definition indexed : TableData :=
  {| name := "Indexed";
     columns := ["index"; "Total"];
     rows := [ {[ "index" := VStr "40"; "Total" := VStr "7" ]};
               {[ "index" := VStr "50"; "Total" := VStr "8" ]} ] |}.

End Samples.

(* ===================================================================== *)
(** ** The two variants side by side, and sample form states *)
(* ===================================================================== *)

Module Variants.

(** Both shape types are unions of string literals: a manual-mode shape
    is the same string in the wider type of the auto-detecting
    variant. *)
Definition widen (dataType : ManualMode.DataType) : Detection.DataType :=
  match dataType with
  | ManualMode.category => Detection.category
  | ManualMode.timeseries => Detection.timeseries
  | ManualMode.multiseries => Detection.multiseries
  end.

(** A dataset of the earlier chart component seen by the later one,
    which finds no stored shape in it. *)
Definition upgrade (data : LegacyChartDisplay.TableData) : ChartDisplay.TableData :=
  {| ChartDisplay.name := LegacyChartDisplay.name data;
     ChartDisplay.columns := LegacyChartDisplay.columns data;
     ChartDisplay.rows := LegacyChartDisplay.rows data;
     ChartDisplay.colors := LegacyChartDisplay.colors data;
     ChartDisplay.dataType := None |}.

End Variants.

Module FormSamples.

Import App.

(** A form filled in with two columns and two rows. *)
Definition filled : FormState :=
  {| tableName := "Revenue";
     columns := ["Day"; "Revenue"];
     rows := [ {[ "Day" := VStr "1"; "Revenue" := VStr "100" ]};
               {[ "Day" := VStr "2"; "Revenue" := VStr "150" ]} ];
     tableData := None;
     viewType := table;
     selectedTheme := "Ocean";
     customColors := {[ "Revenue" := "#123456" ]};
     useCustomColors := true;
     dataTypeMode := Detection.auto;
     detectedDataType := None |}.

(** A stand-in for the runtime's number-to-string conversion, for
    forms whose cells are all strings. *)
Definition noNumbers (n : number) : string := "NaN".

(** A stand-in for the text of an inherited object, for tables without
    a column named like one. *)
Definition noObjects (member : string) : string := "function".

End FormSamples.

(* ===================================================================== *)
(** ** The specification's reading of a numeric cell *)
(* ===================================================================== *)

Module Spec.

(** After the specification's words: a value parses as a number when
    it is already a number, or is a string that converts to a number,
    the empty string not counting as numeric. *)
Definition parsesAsNumber (v : option value) : bool :=
  match v with
  | Some (VNum _) => true
  | Some (VStr s) => negb (String.eqb s "") && negb (isNaN (StringToNumber s))
  | None => false
  end.

End Spec.

(** What the detector's test accepts: a number, or a string that
  [Number] does not turn into [NaN]. *)
Inductive NumericCell : option value → Prop :=
| numeric_number (n : number) : NumericCell (Some (VNum n))
| numeric_string (s : string) :
  isNaN (StringToNumber s) = false → NumericCell (Some (VStr s)).

(** Two row lists agree on a set of columns. *)
Definition agreeOn (cols : list string) (rows1 rows2 : list (gmap string value)) : Prop :=
  Forall2 (λ r1 r2 : gmap string value, ∀ col, col ∈ cols → r1 !! col = r2 !! col)
          rows1 rows2.

(* ===================================================================== *)
(** ** The conversions and the functions on the sample datasets *)
(* ===================================================================== *)

Section Evaluation.

Example Number_of_blank :
  StringToNumber "" = S754_zero false ∧ StringToNumber "  " = S754_zero false.
Proof. by vm_compute. Qed.

Example Number_of_text :
  StringToNumber "abc" = NaN ∧ StringToNumber "12px" = NaN
  ∧ StringToNumber "1.5e" = NaN ∧ StringToNumber "-0x10" = NaN.
Proof. by vm_compute. Qed.

Example Number_of_integers :
  StringToNumber "150" = of_Z 150 ∧ StringToNumber " 12 " = of_Z 12
  ∧ StringToNumber "0x10" = of_Z 16 ∧ StringToNumber "1e3" = of_Z 1000
  ∧ StringToNumber "-7" = of_Z (-7).
Proof. by vm_compute. Qed.

Example Number_of_fractions :
  StringToNumber "0.1" = S754_finite false 7205759403792794 (-56)
  ∧ StringToNumber ".5" = S754_finite false 4503599627370496 (-53)
  ∧ StringToNumber "1e400" = Infinity false
  ∧ StringToNumber "-Infinity" = Infinity true
  ∧ StringToNumber "1e-400" = S754_zero false.
Proof. by vm_compute. Qed.

Example detect_samples :
  Detection.type (Detection.detectDataType Samples.sales) = Detection.category
  ∧ Detection.confidence (Detection.detectDataType Samples.revenue) = Detection.high
  ∧ Detection.type (Detection.detectDataType Samples.regions) = Detection.multiseries
  ∧ Detection.confidence (Detection.detectDataType Samples.regions) = Detection.high
  ∧ Detection.confidence (Detection.detectDataType Samples.mixed) = Detection.low
  ∧ Detection.type (Detection.detectDataType Samples.singleColumn) = Detection.category.
Proof. by vm_compute. Qed.

Example prepare_sales :
  ChartDisplay.prepareChartData (Samples.withShape Samples.sales ManualMode.category)
  = [ ChartDisplay.SliceEntry
        {| ChartDisplay.slice_name := "Jan";
           ChartDisplay.slice_value := Num (of_Z 10);
           ChartDisplay.slice_color := Some "#3B82F6" |};
      ChartDisplay.SliceEntry
        {| ChartDisplay.slice_name := "Feb";
           ChartDisplay.slice_value := Num (of_Z 20);
           ChartDisplay.slice_color := Some "#10B981" |};
      ChartDisplay.SliceEntry
        {| ChartDisplay.slice_name := "Mar";
           ChartDisplay.slice_value := Num (of_Z 15);
           ChartDisplay.slice_color := Some "#F59E0B" |} ].
Proof. by vm_compute. Qed.

End Evaluation.

(* ===================================================================== *)
(** ** Properties of the suitability matrix and of the recommendations *)
(* ===================================================================== *)

Section SuitabilityMatrix.

(** C1. The suitability lookup is a total, fixed table: in both
    variants of [getChartSuitability] the flag is true exactly for
    category/pie, category/bar and for bar, line and area of the
    time-series and multi-series shapes; for the [auto] request every
    kind is suitable.  The lookup takes no dataset, so no dataset
    content can influence it. *)
Theorem getChartSuitability_table (kind : ChartType) :
  suitable (Detection.getChartSuitability kind Detection.category)
    = match kind with pie | bar => true | line | area => false end
  ∧ suitable (Detection.getChartSuitability kind Detection.timeseries)
    = match kind with pie => false | bar | line | area => true end
  ∧ suitable (Detection.getChartSuitability kind Detection.multiseries)
    = match kind with pie => false | bar | line | area => true end
  ∧ suitable (Detection.getChartSuitability kind Detection.auto) = true
  ∧ suitable (ManualMode.getChartSuitability kind ManualMode.category)
    = match kind with pie | bar => true | line | area => false end
  ∧ suitable (ManualMode.getChartSuitability kind ManualMode.timeseries)
    = match kind with pie => false | bar | line | area => true end
  ∧ suitable (ManualMode.getChartSuitability kind ManualMode.multiseries)
    = match kind with pie => false | bar | line | area => true end.
Proof. destruct kind; repeat split. Qed.

(** C10. The recommendation list and the suitability matrix agree: a
    chart kind is recommended for a shape exactly when the matrix
    calls it suitable for that shape. *)
Theorem recommended_iff_suitable (shape : Detection.DataType) (kind : ChartType) :
  kind ∈ Detection.recommended (Detection.getRecommendedCharts shape)
  ↔ suitable (Detection.getChartSuitability kind shape) = true.
Proof.
  destruct shape, kind; cbn; split; intros H; try reflexivity;
    try discriminate H; try (repeat constructor);
    exfalso; repeat (apply elem_of_cons in H as [H | H]; [discriminate H |]);
    by apply elem_of_nil in H.
Qed.

End SuitabilityMatrix.

(* ===================================================================== *)
(** ** Properties of [detectDataType] *)
(* ===================================================================== *)

Section Detector.

Import Detection.

Lemma looksNumeric_spec (v : option value) :
  looksNumeric v = true ↔ NumericCell v.
Proof.
  split.
  - destruct v as [[s | n] |]; cbn; intros H.
    + constructor. by apply negb_true_iff.
    + constructor.
    + discriminate.
  - intros [n | s Hs]; cbn; [done | by rewrite Hs].
Qed.

Lemma forallb_looksNumeric (vs : list (option value)) :
  forallb looksNumeric vs = true ↔ Forall NumericCell vs.
Proof.
  rewrite forallb_forall, Forall_forall.
  split; intros H v Hv.
  - apply looksNumeric_spec, H. by apply list_elem_of_In.
  - apply looksNumeric_spec, H. by apply list_elem_of_In.
Qed.

(** C4. A dataset with exactly one row and more than one column is
    classified as a category dataset with high confidence. *)
Theorem single_row_is_category (data : TableData) :
  length (rows data) = 1 →
  1 < length (columns data) →
  type (detectDataType data) = category
  ∧ confidence (detectDataType data) = high.
Proof.
  intros Hrows Hcols. unfold detectDataType.
  rewrite Hrows. cbn [Nat.eqb andb].
  destruct (Nat.ltb_spec 1 (length (columns data))) as [_ | Hle]; [done | lia].
Qed.

Lemma single_row_is_category_witness :
  type (detectDataType Samples.sales) = category
  ∧ confidence (detectDataType Samples.sales) = high.
Proof. apply single_row_is_category; cbn; lia. Defined.

(** C8. The detector is total, and a dataset with no rows or with no
    columns gets the inert fallback: multi-series with low
    confidence. *)
Theorem detect_total_and_degenerate (data : TableData) :
  (∃ info, detectDataType data = info)
  ∧ (length (rows data) = 0 ∨ length (columns data) = 0 →
     type (detectDataType data) = multiseries
     ∧ confidence (detectDataType data) = low).
Proof.
  split; [by eexists |].
  intros [H | H]; unfold detectDataType, multiSeriesCase; rewrite H; cbn.
  - done.
  - by rewrite !andb_false_r.
Qed.

Lemma detect_total_and_degenerate_witness :
  type (detectDataType Samples.noRows) = multiseries
  ∧ confidence (detectDataType Samples.noRows) = low.
Proof.
  apply (proj2 (detect_total_and_degenerate Samples.noRows)).
  left. reflexivity.
Defined.

(** *** Two columns: the time-series case *)

Lemma detect_two_columns (data : TableData) :
  1 < length (rows data) →
  length (columns data) = 2 →
  detectDataType data =
    if forallb looksNumeric (firstColValues data) then
      {| type := timeseries;
         confidence := high;
         recommendedCharts := [line; area; bar];
         reason := "Data berurutan dengan 1 metrik - cocok untuk melihat tren" |}
    else
      {| type := timeseries;
         confidence := medium;
         recommendedCharts := [line; area; bar];
         reason := "Data dengan label dan 1 metrik - cocok untuk melihat perubahan" |}.
Proof.
  intros Hrows Hcols. unfold detectDataType. rewrite Hcols.
  destruct (Nat.eqb_spec (length (rows data)) 1) as [E | _]; [lia |].
  destruct (Nat.ltb_spec 1 (length (rows data))) as [_ | Hle]; [| lia].
  reflexivity.
Qed.

(** C2, as stated, fails.  With the first column left blank in every
    row, the specification's reading (the empty string is not numeric)
    asks for medium confidence, and the detector answers high. *)
Lemma blank_first_column_is_high :
  1 < length (rows Samples.blankFirstColumn)
  ∧ length (columns Samples.blankFirstColumn) = 2
  ∧ ¬ (confidence (detectDataType Samples.blankFirstColumn) = high
       ↔ Forall (λ v, Spec.parsesAsNumber v = true)
                (firstColValues Samples.blankFirstColumn)).
Proof.
  split; [cbn; lia |]. split; [reflexivity |].
  intros [Hhigh _].
  specialize (Hhigh eq_refl).
  apply Forall_inv in Hhigh. vm_compute in Hhigh. discriminate Hhigh.
Qed.

(** C2, amended.  A dataset with more than one row and exactly two
    columns is classified as a time series; its confidence is high
    exactly when every first-column value is a number or a string that
    [Number] does not turn into [NaN], and medium otherwise.  The empty
    string is such a string ([Number] gives 0 for it); a missing cell
    is not. *)
Theorem two_columns_is_timeseries (data : TableData) :
  1 < length (rows data) →
  length (columns data) = 2 →
  type (detectDataType data) = timeseries
  ∧ (confidence (detectDataType data) = high
     ↔ Forall NumericCell (firstColValues data))
  ∧ (¬ Forall NumericCell (firstColValues data)
     → confidence (detectDataType data) = medium)
  ∧ NumericCell (Some (VStr ""))
  ∧ ¬ NumericCell None.
Proof.
  intros Hrows Hcols.
  rewrite (detect_two_columns data Hrows Hcols).
  pose proof (forallb_looksNumeric (firstColValues data)) as Hall.
  destruct (forallb looksNumeric (firstColValues data)); cbn.
  - repeat split; try tauto.
    + by constructor.
    + inversion 1.
  - repeat split; try tauto.
    + discriminate.
    + intros H. apply Hall in H. discriminate H.
    + by constructor.
    + inversion 1.
Qed.

Lemma two_columns_is_timeseries_witness :
  type (detectDataType Samples.revenue) = timeseries
  ∧ (confidence (detectDataType Samples.revenue) = high
     ↔ Forall NumericCell (firstColValues Samples.revenue))
  ∧ (¬ Forall NumericCell (firstColValues Samples.revenue)
     → confidence (detectDataType Samples.revenue) = medium)
  ∧ NumericCell (Some (VStr ""))
  ∧ ¬ NumericCell None.
Proof. apply two_columns_is_timeseries; cbn; lia. Defined.

(** *** Recommended chart kinds *)

(** C5, as stated, fails.  The low-confidence single-column dataset is
    classified as a category dataset, and pie is not among its
    recommended charts. *)
Lemma single_column_omits_pie :
  type (detectDataType Samples.singleColumn) = category
  ∧ pie ∉ recommendedCharts (detectDataType Samples.singleColumn).
Proof.
  split; [reflexivity |].
  cbn. intros H. apply elem_of_cons in H as [H | H]; [discriminate H |].
  by apply elem_of_nil in H.
Qed.

Lemma detect_cases (data : TableData) :
  let info := detectDataType data in
  (type info = category ∧ confidence info = high
     ∧ recommendedCharts info = [pie; bar])
  ∨ (type info = timeseries ∧ confidence info = high
     ∧ recommendedCharts info = [line; area; bar])
  ∨ (type info = timeseries ∧ confidence info = medium
     ∧ recommendedCharts info = [line; area; bar])
  ∨ (type info = multiseries ∧ confidence info = high
     ∧ recommendedCharts info = [line; area; bar])
  ∨ (type info = category ∧ confidence info = low
     ∧ recommendedCharts info = [bar])
  ∨ (type info = multiseries ∧ confidence info = low
     ∧ recommendedCharts info = [bar; line]).
Proof.
  cbv zeta. unfold detectDataType, multiSeriesCase.
  repeat match goal with
         | |- context [if ?b then _ else _] => destruct b; cbn
         end; tauto.
Qed.

(** C5, amended.  When the confidence is high or medium, the
    recommended charts of a classification depend on its shape alone
    and are those of [getRecommendedCharts]: pie and bar for category;
    line, area and bar for time series and multi-series.  The two
    low-confidence results carry shorter lists: bar for category, bar
    and line for multi-series.  In [getRecommendedCharts] the
    not-recommended kinds are exactly the kinds that are not
    recommended. *)
Theorem recommendedCharts_by_shape (data : TableData) :
  let info := detectDataType data in
  (confidence info ≠ low →
   recommendedCharts info = recommended (getRecommendedCharts (type info)))
  ∧ (confidence info = low →
     (type info = category ∧ recommendedCharts info = [bar])
     ∨ (type info = multiseries ∧ recommendedCharts info = [bar; line]))
  ∧ recommended (getRecommendedCharts category) = [pie; bar]
  ∧ recommended (getRecommendedCharts timeseries) = [line; area; bar]
  ∧ recommended (getRecommendedCharts multiseries) = [line; area; bar]
  ∧ (∀ shape kind,
       kind ∈ notRecommended (getRecommendedCharts shape)
       ↔ kind ∉ recommended (getRecommendedCharts shape)).
Proof.
  cbv zeta. split; [| split; [| repeat split]].
  - intros Hconf.
    destruct (detect_cases data)
      as [H | [H | [H | [H | [H | H]]]]]; cbv zeta in H;
      destruct H as (Ht & Hc & Hr); rewrite Ht, Hr; try reflexivity;
      congruence.
  - intros Hconf.
    destruct (detect_cases data)
      as [H | [H | [H | [H | [H | H]]]]]; cbv zeta in H;
      destruct H as (Ht & Hc & Hr); try congruence; tauto.
  - destruct shape, kind; cbn; intros H; try (by inversion H);
      intros H'; repeat (apply elem_of_cons in H as [H | H]; [discriminate H |]);
      try (by apply elem_of_nil in H);
      repeat (apply elem_of_cons in H' as [H' | H']; [discriminate H' |]);
      by apply elem_of_nil in H'.
  - destruct shape, kind; cbn; intros H; try (repeat constructor);
      exfalso; apply H; repeat constructor.
Qed.

Lemma recommendedCharts_by_shape_witness :
  recommendedCharts (detectDataType Samples.regions)
  = recommended (getRecommendedCharts (type (detectDataType Samples.regions)))
  ∧ ((type (detectDataType Samples.mixed) = category
      ∧ recommendedCharts (detectDataType Samples.mixed) = [bar])
     ∨ (type (detectDataType Samples.mixed) = multiseries
        ∧ recommendedCharts (detectDataType Samples.mixed) = [bar; line])).
Proof.
  split.
  - apply (proj1 (recommendedCharts_by_shape Samples.regions)).
    vm_compute. discriminate.
  - apply (proj1 (proj2 (recommendedCharts_by_shape Samples.mixed))).
    vm_compute. reflexivity.
Defined.

(** *** Three or more columns: the first column is not consulted *)

Lemma every_row_agree (cols : list string) (rows1 rows2 : list (gmap string value))
    (col : string) :
  agreeOn cols rows1 rows2 →
  col ∈ cols →
  forallb (λ row : gmap string value, looksNumeric (row !! col)) rows1
  = forallb (λ row : gmap string value, looksNumeric (row !! col)) rows2.
Proof.
  intros Hagree Hcol.
  induction Hagree as [| r1 r2 rs1 rs2 Hr _ IH]; [reflexivity |].
  cbn. by rewrite (Hr col Hcol), IH.
Qed.

Lemma every_column_agree (cols : list string) (rows1 rows2 : list (gmap string value)) :
  agreeOn cols rows1 rows2 →
  ∀ cs, cs ⊆ cols →
  forallb (λ col, forallb (λ row : gmap string value, looksNumeric (row !! col)) rows1) cs
  = forallb (λ col, forallb (λ row : gmap string value, looksNumeric (row !! col)) rows2) cs.
Proof.
  intros Hagree cs. induction cs as [| c cs IH]; intros Hsub; [reflexivity |].
  cbn. rewrite (every_row_agree cols rows1 rows2 c Hagree).
  - rewrite IH; [reflexivity |].
    intros x Hx. apply Hsub. by right.
  - apply Hsub. by left.
Qed.

Lemma detect_many_columns (data : TableData) :
  1 < length (rows data) →
  3 ≤ length (columns data) →
  detectDataType data =
    if otherColsNumeric data then
      {| type := multiseries;
         confidence := high;
         recommendedCharts := [line; area; bar];
         reason := "Multiple series untuk dibandingkan - cocok untuk melihat perbedaan tren" |}
    else
      {| type := multiseries;
         confidence := low;
         recommendedCharts := [bar; line];
         reason := "Struktur data kompleks - pilih visualisasi yang sesuai" |}.
Proof.
  intros Hrows Hcols. unfold detectDataType, multiSeriesCase.
  destruct (Nat.eqb_spec (length (rows data)) 1) as [E | _]; [lia |].
  destruct (Nat.ltb_spec 1 (length (rows data))) as [_ | Hle]; [| lia].
  destruct (Nat.eqb_spec (length (columns data)) 2) as [E | _]; [lia |].
  destruct (Nat.leb_spec 3 (length (columns data))) as [_ | Hlt]; [| lia].
  destruct (Nat.eqb_spec (length (columns data)) 1) as [E | _]; [lia |].
  cbn. by destruct (otherColsNumeric data).
Qed.

(** C9. Two datasets with more than one row and three or more columns
    that agree on every cell of every column but the first get the same
    classification, reason included: the first column, name and values,
    plays no part. *)
Theorem detect_ignores_first_column (d1 d2 : TableData)
    (first1 first2 : string) (others : list string) :
  columns d1 = first1 :: others →
  columns d2 = first2 :: others →
  2 ≤ length others →
  1 < length (rows d1) →
  agreeOn others (rows d1) (rows d2) →
  detectDataType d1 = detectDataType d2.
Proof.
  intros Hc1 Hc2 Hothers Hrows Hagree.
  pose proof (Forall2_length _ _ _ Hagree) as Hlen.
  rewrite (detect_many_columns d1), (detect_many_columns d2);
    rewrite ?Hc1, ?Hc2; cbn [length]; try lia.
  unfold otherColsNumeric. rewrite Hc1, Hc2.
  change (drop 1 (first1 :: others)) with others.
  change (drop 1 (first2 :: others)) with others.
  by rewrite (every_column_agree others (rows d1) (rows d2) Hagree others).
Qed.

Lemma detect_ignores_first_column_witness :
  detectDataType Samples.regions = detectDataType Samples.regionsRenamed.
Proof.
  apply (detect_ignores_first_column Samples.regions Samples.regionsRenamed
           "Region" "Area" ["Q1"; "Q2"]).
  - reflexivity.
  - reflexivity.
  - cbn. lia.
  - cbn. lia.
  - repeat constructor; intros col Hcol;
      repeat (apply elem_of_cons in Hcol as [-> | Hcol]; [reflexivity |]);
      by apply elem_of_nil in Hcol.
Defined.

End Detector.

(* ===================================================================== *)
(** ** Properties of [prepareChartData] *)
(* ===================================================================== *)

Section Transformer.

Import ManualMode ChartDisplay.

(** *** Reading and writing properties *)

Lemma getCell_own (row : gmap string value) (key : string) (v : value) :
  row !! key = Some v → getCell row key = ofValue v.
Proof. intros H. unfold getCell, get. by rewrite H. Qed.

Lemma getCell_missing (row : gmap string value) (key : string) :
  row !! key = None → inherited key = false → getCell row key = Undefined.
Proof. intros H Hi. unfold getCell, get. by rewrite H, Hi. Qed.

Lemma getCell_inherited (row : gmap string value) (key : string) :
  row !! key = None → inherited key = true → getCell row key = Inherited key.
Proof. intros H Hi. unfold getCell, get. by rewrite H, Hi. Qed.

(** An assignment on an object without an own [__proto__] property. *)
Lemma set_lookup {A : Type} (key k : string) (x : A) (own : gmap string A) :
  own !! "__proto__" = None →
  set key x own !! k
  = if decide (k = key ∧ key ≠ "__proto__") then Some x else own !! k.
Proof.
  intros Hproto. unfold set.
  destruct (String.eqb_spec key "__proto__") as [-> | Hkey].
  - rewrite Hproto. rewrite decide_False; [reflexivity | by intros [_ ?]].
  - assert (Hins : <[key := x]> own !! k
                   = if decide (k = key ∧ key ≠ "__proto__") then Some x
                     else own !! k).
    { rewrite lookup_insert. destruct (decide (key = k)) as [<- | Hne].
      - by rewrite decide_True.
      - rewrite decide_False; [reflexivity |]. intros [-> _]. by apply Hne. }
    by destruct (own !! key).
Qed.

(** What [forEach] leaves under a property name: the converted cell for
    a column, the initial content of the object otherwise; nothing is
    ever stored under [__proto__]. *)
Lemma fillColumns_lookup (f : any → any) (cols : list string)
    (row : gmap string value) (chartRow : gmap string any) (key : string) :
  chartRow !! "__proto__" = None →
  fillColumns f cols row chartRow !! key
  = if decide (key ∈ cols ∧ key ≠ "__proto__")
    then Some (f (getCell row key)) else chartRow !! key.
Proof.
  unfold fillColumns. revert chartRow.
  induction cols as [| c cs IH]; intros chartRow Hproto; cbn [foldl].
  - rewrite decide_False; [reflexivity |].
    intros [H _]. by apply not_elem_of_nil in H.
  - rewrite IH.
    2: { rewrite set_lookup by done. rewrite decide_False; [done |].
         intros [<- H]. by apply H. }
    destruct (decide (key ∈ cs ∧ key ≠ "__proto__")) as [[Hin Hk] | Hnot].
    + rewrite decide_True; [reflexivity |]. split; [by right | done].
    + rewrite set_lookup by done.
      destruct (decide (key = c ∧ c ≠ "__proto__")) as [[-> Hc] | Hnot'].
      * rewrite decide_True; [reflexivity |]. split; [by left | done].
      * rewrite decide_False; [reflexivity |].
        intros [Hin Hk]. apply elem_of_cons in Hin as [-> | Hin].
        -- by apply Hnot'.
        -- by apply Hnot.
Qed.

(** *** Length of the result *)

(** C3, as stated, fails.  For the category shape on a dataset with two
    rows and one column the result has one entry per row, not one per
    column. *)
Lemma category_many_rows_length :
  dataType (Samples.withShape Samples.singleColumn category) = Some category
  ∧ length (prepareChartData (Samples.withShape Samples.singleColumn category))
    ≠ length (columns (Samples.withShape Samples.singleColumn category)).
Proof. split; [reflexivity |]. vm_compute. discriminate. Qed.

(** C3, amended.  The result has one entry per column when the shape is
    category and the dataset has exactly one row and more than one
    column (the transpose); in every other case, whatever the shape, it
    has one entry per row. *)
Theorem prepareChartData_length (data : TableData) :
  length (prepareChartData data)
  = if bool_decide (default category (dataType data) = category
                    ∧ length (rows data) = 1
                    ∧ 1 < length (columns data))
    then length (columns data)
    else length (rows data).
Proof.
  unfold prepareChartData.
  destruct (Nat.eqb_spec (length (rows data)) 1) as [E | NE];
    destruct (Nat.ltb_spec 1 (length (columns data))) as [L | NL];
    destruct (default category (dataType data));
    repeat case_bool_decide; cbn [andb];
    rewrite ?length_imap, ?length_fmap;
    try reflexivity; try congruence; try (exfalso; intuition (congruence || lia)).
Qed.

(** *** The multi-series records *)

Lemma multiseries_entry (data : TableData) (i : nat) (row : gmap string value) :
  dataType data = Some multiseries →
  rows data !! i = Some row →
  prepareChartData data !! i = Some (ChartRow (seriesRow data row)).
Proof.
  intros Hshape Hrow. unfold prepareChartData. rewrite Hshape. cbn [default].
  rewrite (bool_decide_eq_false_2 (multiseries = category)) by discriminate.
  rewrite (bool_decide_eq_false_2 (multiseries = timeseries)) by discriminate.
  cbn [andb]. rewrite bool_decide_eq_true_2 by reflexivity.
  by rewrite list_lookup_fmap, Hrow.
Qed.

Lemma multiseries_length (data : TableData) :
  dataType data = Some multiseries →
  length (prepareChartData data) = length (rows data).
Proof.
  intros Hshape. unfold prepareChartData. rewrite Hshape. cbn [default].
  rewrite (bool_decide_eq_false_2 (multiseries = category)) by discriminate.
  rewrite (bool_decide_eq_false_2 (multiseries = timeseries)) by discriminate.
  cbn [andb]. rewrite bool_decide_eq_true_2 by reflexivity.
  apply length_fmap.
Qed.

(** C6, as stated, fails.  The first column goes through the same
    conversion as the others: a year entered as the string "2020" comes
    out as the number 2020, not as the string given. *)
Lemma multiseries_key_is_converted :
  dataType (Samples.withShape Samples.yearly multiseries) = Some multiseries
  ∧ ∃ row fields,
      rows (Samples.withShape Samples.yearly multiseries) !! 0 = Some row
      ∧ prepareChartData (Samples.withShape Samples.yearly multiseries) !! 0
        = Some (ChartRow fields)
      ∧ row !! "Year" = Some (VStr "2020")
      ∧ fields !! "Year" = Some (Num (of_Z 2020))
      ∧ fields !! "Year" ≠ Some (Str "2020").
Proof.
  split; [reflexivity |].
  eexists _, _. split; [reflexivity |]. split; [reflexivity |].
  split; [reflexivity |]. split; [by vm_compute |].
  vm_compute. discriminate.
Qed.

(** C6, amended.  For the multi-series shape the result has one record
    per row, in row order, whose properties are exactly the column
    names (nothing is stored for a column called [__proto__]).  Every
    column, the first included, is converted alike: a string that
    [Number] does not turn into [NaN] (the empty string among them)
    becomes that number, any other string is kept as it is, a number
    other than zero and [NaN] is kept, and a missing cell becomes the
    empty string when the column is not named like a member of
    [Object.prototype]. *)
Theorem multiseries_rows (data : TableData) (i : nat) (row : gmap string value) :
  dataType data = Some multiseries →
  rows data !! i = Some row →
  length (prepareChartData data) = length (rows data)
  ∧ ∃ fields,
      prepareChartData data !! i = Some (ChartRow fields)
      ∧ (∀ key, is_Some (fields !! key)
                ↔ key ∈ columns data ∧ key ≠ "__proto__")
      ∧ ∀ col, col ∈ columns data → col ≠ "__proto__" →
          match row !! col with
          | Some (VStr s) =>
              fields !! col
              = Some (if isNaN (StringToNumber s) then Str s
                      else Num (StringToNumber s))
          | Some (VNum n) =>
              truthy_number n = true → fields !! col = Some (Num n)
          | None =>
              inherited col = false → fields !! col = Some (Str "")
          end.
Proof.
  intros Hshape Hrow. split.
  - by apply multiseries_length.
  - exists (seriesRow data row).
    split; [by apply multiseries_entry |]. split.
    + intros key. unfold seriesRow.
      rewrite fillColumns_lookup by apply lookup_empty.
      destruct (decide (key ∈ columns data ∧ key ≠ "__proto__")) as [H | H].
      * split; [done | by eexists].
      * rewrite lookup_empty. split; [by intros [? ?] | done].
    + intros col Hcol Hproto. unfold seriesRow.
      rewrite fillColumns_lookup by apply lookup_empty.
      rewrite decide_True by done.
      destruct (row !! col) as [[s | n] |] eqn:Hcell.
      * rewrite (getCell_own _ _ _ Hcell). unfold seriesValue. cbn.
        destruct (isNaN (StringToNumber s)) eqn:Hnan; cbn; [| reflexivity].
        unfold orElse. cbn.
        destruct s as [| c s]; [by vm_compute in Hnan | reflexivity].
      * intros Htruthy. rewrite (getCell_own _ _ _ Hcell).
        unfold seriesValue, orElse. cbn. by rewrite Htruthy.
      * intros Hinh. by rewrite (getCell_missing _ _ Hcell Hinh).
Qed.

Lemma multiseries_rows_witness :
  length (prepareChartData (Samples.withShape Samples.regions multiseries))
  = length (rows (Samples.withShape Samples.regions multiseries))
  ∧ ∃ fields,
      prepareChartData (Samples.withShape Samples.regions multiseries) !! 0
      = Some (ChartRow fields)
      ∧ fields !! "Region" = Some (Str "East")
      ∧ fields !! "Q1" = Some (Num (of_Z 5))
      ∧ fields !! "Q2" = Some (Num (of_Z 7)).
Proof.
  destruct (multiseries_rows (Samples.withShape Samples.regions multiseries) 0
              {[ "Region" := VStr "East"; "Q1" := VStr "5"; "Q2" := VStr "7" ]}
              eq_refl eq_refl)
    as (Hlen & fields & Hentry & _ & Hcols).
  split; [exact Hlen |]. exists fields. split; [exact Hentry |].
  repeat split.
  - apply (Hcols "Region"); [by left | discriminate].
  - apply (Hcols "Q1"); [right; by left | discriminate].
  - apply (Hcols "Q2"); [right; right; by left | discriminate].
Defined.

(** *** The time-series records *)

Lemma timeseries_entry (data : TableData) (i : nat) (row : gmap string value) :
  dataType data = Some timeseries →
  rows data !! i = Some row →
  prepareChartData data !! i = Some (ChartRow (timeSeriesRow data i row)).
Proof.
  intros Hshape Hrow. unfold prepareChartData. rewrite Hshape. cbn [default].
  rewrite (bool_decide_eq_false_2 (timeseries = category)) by discriminate.
  cbn [andb]. rewrite bool_decide_eq_true_2 by reflexivity.
  by rewrite list_lookup_imap, Hrow.
Qed.

Lemma timeseries_length (data : TableData) :
  dataType data = Some timeseries →
  length (prepareChartData data) = length (rows data).
Proof.
  intros Hshape. unfold prepareChartData. rewrite Hshape. cbn [default].
  rewrite (bool_decide_eq_false_2 (timeseries = category)) by discriminate.
  cbn [andb]. rewrite bool_decide_eq_true_2 by reflexivity.
  apply length_imap.
Qed.

(** C7, as stated, fails.  On the two-day revenue dataset the second
    record carries the label "Baris 2", and none of its properties
    holds the text "row 2".  On a dataset with a column called [index]
    the first record holds that column's value, 40, under [index], and
    none of its properties holds the row position 1. *)
Lemma timeseries_label_text :
  (∃ fields,
     prepareChartData (Samples.withShape Samples.revenue timeseries) !! 1
     = Some (ChartRow fields)
     ∧ fields !! "indexLabel" = Some (Str "Baris 2")
     ∧ ∀ key, fields !! key ≠ Some (Str "row 2"))
  ∧ (∃ fields,
       prepareChartData (Samples.withShape Samples.indexed timeseries) !! 0
       = Some (ChartRow fields)
       ∧ fields !! "index" = Some (Num (of_Z 40))
       ∧ ∀ key, fields !! key ≠ Some (Num (of_nat 1))).
Proof.
  assert (Hinit : ∀ label position,
            (<["indexLabel" := Str label]>
               (<["index" := Num position]> (∅ : gmap string any)))
            !! "__proto__" = None).
  { intros label position.
    rewrite lookup_insert_ne by discriminate.
    rewrite lookup_insert_ne by discriminate. apply lookup_empty. }
  split.
  - eexists. split; [reflexivity |]. split; [by vm_compute |].
    intros key Hkey.
    unfold timeSeriesRow in Hkey. rewrite fillColumns_lookup in Hkey by apply Hinit.
    destruct (decide (key ∈ _ ∧ _)) as [[Hin _] | _].
    + cbn in Hin.
      repeat (apply elem_of_cons in Hin as [-> | Hin]; [by vm_compute in Hkey |]).
      by apply elem_of_nil in Hin.
    + rewrite !lookup_insert in Hkey.
      repeat (destruct (decide _) in Hkey; [by vm_compute in Hkey |]).
      by rewrite lookup_empty in Hkey.
  - eexists. split; [reflexivity |]. split; [by vm_compute |].
    intros key Hkey.
    unfold timeSeriesRow in Hkey. rewrite fillColumns_lookup in Hkey by apply Hinit.
    destruct (decide (key ∈ _ ∧ _)) as [[Hin _] | Hnotin].
    + cbn in Hin.
      repeat (apply elem_of_cons in Hin as [-> | Hin]; [by vm_compute in Hkey |]).
      by apply elem_of_nil in Hin.
    + rewrite !lookup_insert in Hkey.
      destruct (decide _) in Hkey; [by vm_compute in Hkey |].
      destruct (decide _) as [<- | _] in Hkey; [| by rewrite lookup_empty in Hkey].
      apply Hnotin. split; [by left | discriminate].
Qed.

Lemma timeSeriesRow_lookup (data : TableData) (i : nat)
    (row : gmap string value) (key : string) :
  timeSeriesRow data i row !! key
  = if decide (key ∈ columns data ∧ key ≠ "__proto__")
    then Some (plotValue (getCell row key))
    else (<["indexLabel" := Str ("Baris " +:+ position_to_string (i + 1))]>
            (<["index" := Num (of_nat (i + 1))]> (∅ : gmap string any)))
         !! key.
Proof.
  unfold timeSeriesRow. apply fillColumns_lookup.
  rewrite lookup_insert_ne by discriminate.
  rewrite lookup_insert_ne by discriminate. apply lookup_empty.
Qed.

(** C7, amended.  For the time-series shape the result has one record
    per row, in row order.  Each column's property (nothing is stored
    for a column called [__proto__]) holds a number: the cell itself or
    its conversion by [Number], with 0 in place of [NaN] (an
    unparseable string) and of zero, and 0 for a missing cell when the
    column is not named like a member of [Object.prototype].  Unless a
    column of that name overwrites it, the property [index] holds the
    1-based position of the row and [indexLabel] the text "Baris N" for
    that position N.  For the two-day revenue dataset the second record
    is index 2, indexLabel "Baris 2", Day 2, Revenue 150. *)
Theorem timeseries_rows (data : TableData) (i : nat) (row : gmap string value) :
  dataType data = Some timeseries →
  rows data !! i = Some row →
  length (prepareChartData data) = length (rows data)
  ∧ (∃ fields,
       prepareChartData data !! i = Some (ChartRow fields)
       ∧ (∀ col, col ∈ columns data → col ≠ "__proto__" →
            match row !! col with
            | Some (VStr s) =>
                fields !! col = Some (Num (or_zero (StringToNumber s)))
            | Some (VNum n) => fields !! col = Some (Num (or_zero n))
            | None =>
                inherited col = false →
                fields !! col = Some (Num (S754_zero false))
            end)
       ∧ (∀ col s, col ∈ columns data → col ≠ "__proto__" →
            row !! col = Some (VStr s) →
            isNaN (StringToNumber s) = true →
            fields !! col = Some (Num (S754_zero false)))
       ∧ ("index" ∉ columns data →
          fields !! "index" = Some (Num (of_nat (i + 1))))
       ∧ ("indexLabel" ∉ columns data →
          fields !! "indexLabel"
          = Some (Str ("Baris " +:+ position_to_string (i + 1)))))
  ∧ prepareChartData (Samples.withShape Samples.revenue timeseries) !! 1
    = Some (ChartRow {[ "index" := Num (of_Z 2);
                        "indexLabel" := Str "Baris 2";
                        "Day" := Num (of_Z 2);
                        "Revenue" := Num (of_Z 150) ]}).
Proof.
  intros Hshape Hrow. split; [| split].
  - by apply timeseries_length.
  - exists (timeSeriesRow data i row).
    split; [by apply timeseries_entry |].
    assert (Hcol : ∀ col, col ∈ columns data → col ≠ "__proto__" →
              match row !! col with
              | Some (VStr s) =>
                  timeSeriesRow data i row !! col
                  = Some (Num (or_zero (StringToNumber s)))
              | Some (VNum n) =>
                  timeSeriesRow data i row !! col = Some (Num (or_zero n))
              | None =>
                  inherited col = false →
                  timeSeriesRow data i row !! col = Some (Num (S754_zero false))
              end).
    { intros col Hin Hproto.
      rewrite timeSeriesRow_lookup, decide_True by done.
      destruct (row !! col) as [[s | n] |] eqn:Hcell.
      - by rewrite (getCell_own _ _ _ Hcell).
      - rewrite (getCell_own _ _ _ Hcell). unfold plotValue, orElse, or_zero.
        cbn. by destruct (truthy_number n).
      - intros Hinh. by rewrite (getCell_missing _ _ Hcell Hinh). }
    split; [exact Hcol |]. split; [| split].
    + intros col s Hin Hproto Hcell Hnan.
      specialize (Hcol col Hin Hproto). rewrite Hcell in Hcol. rewrite Hcol.
      unfold or_zero. by destruct (StringToNumber s).
    + intros Hfree. rewrite timeSeriesRow_lookup.
      rewrite decide_False by (by intros [? _]).
      rewrite lookup_insert_ne by done. by rewrite lookup_insert_eq.
    + intros Hfree. rewrite timeSeriesRow_lookup.
      rewrite decide_False by (by intros [? _]).
      by rewrite lookup_insert_eq.
  - by vm_compute.
Qed.

Lemma timeseries_rows_witness :
  length (prepareChartData (Samples.withShape Samples.revenue timeseries))
  = length (rows (Samples.withShape Samples.revenue timeseries))
  ∧ ∃ fields,
      prepareChartData (Samples.withShape Samples.revenue timeseries) !! 1
      = Some (ChartRow fields)
      ∧ fields !! "Day" = Some (Num (of_Z 2))
      ∧ fields !! "index" = Some (Num (of_nat 2))
      ∧ fields !! "indexLabel" = Some (Str "Baris 2").
Proof.
  destruct (timeseries_rows (Samples.withShape Samples.revenue timeseries) 1
              {[ "Day" := VStr "2"; "Revenue" := VStr "150" ]}
              eq_refl eq_refl)
    as (Hlen & (fields & Hentry & Hcols & _ & Hindex & Hlabel) & _).
  split; [exact Hlen |]. exists fields. split; [exact Hentry |].
  repeat split.
  - pose proof (Hcols "Day") as HDay. cbn in HDay.
    rewrite HDay; [by vm_compute | by left | discriminate].
  - apply Hindex. intros H.
    repeat (apply elem_of_cons in H as [H | H]; [discriminate H |]).
    by apply elem_of_nil in H.
  - apply Hlabel. intros H.
    repeat (apply elem_of_cons in H as [H | H]; [discriminate H |]).
    by apply elem_of_nil in H.
Defined.

End Transformer.

(* ===================================================================== *)
(** ** Properties of the colour themes *)
(* ===================================================================== *)

Section Themes.

Import ColorThemes.

Lemma getColorForIndex_position (index : number) (colors : list string) (k : nat) :
  integerValue index = Some (Z.of_nat k) →
  colors ≠ [] →
  getColorForIndex index colors = colors !! (k `mod` length colors).
Proof.
  intros Hint Hne. unfold getColorForIndex. rewrite Hint.
  assert (Hlen : length colors ≠ 0) by (by destruct colors).
  destruct (Nat.eqb_spec (length colors) 0) as [? | _]; [done |].
  rewrite Z.rem_mod_nonneg by lia. rewrite <- Nat2Z.inj_mod.
  destruct (Z.ltb_spec (Z.of_nat (k `mod` length colors)) 0) as [? | _]; [lia |].
  by rewrite Nat2Z.id.
Qed.

(** X1. [getColorForIndex] yields [undefined] on an empty palette and
    for an index that is not an integer (a fraction, [NaN], an
    infinity).  On a non-empty palette a non-negative integer index
    yields the palette colour at the index modulo the palette's length,
    hence always a colour of the palette, the same for indices one
    length apart; a negative integer index yields the first colour when
    it is a multiple of the length and [undefined] otherwise. *)
Theorem getColorForIndex_cycles (index : number) (colors : list string) :
  (colors = [] → getColorForIndex index colors = None)
  ∧ (integerValue index = None → getColorForIndex index colors = None)
  ∧ (colors ≠ [] →
     (∀ k, integerValue index = Some (Z.of_nat k) →
        getColorForIndex index colors = colors !! (k `mod` length colors)
        ∧ (∃ c, getColorForIndex index colors = Some c ∧ c ∈ colors)
        ∧ (∀ index',
             integerValue index' = Some (Z.of_nat (k + length colors)) →
             getColorForIndex index' colors = getColorForIndex index colors))
     ∧ (∀ z, integerValue index = Some z → (z < 0)%Z →
          getColorForIndex index colors
          = if (Z.rem z (Z.of_nat (length colors)) =? 0)%Z
            then colors !! 0 else None)).
Proof.
  split; [| split].
  - intros ->. unfold getColorForIndex. by destruct (integerValue index).
  - intros Hnone. unfold getColorForIndex. by rewrite Hnone.
  - intros Hne.
    assert (Hlen : length colors ≠ 0) by (by destruct colors).
    split.
    + intros k Hint.
      rewrite (getColorForIndex_position index colors k Hint Hne).
      split; [reflexivity |]. split.
      * destruct (lookup_lt_is_Some_2 colors (k `mod` length colors)) as [c Hc].
        { by apply Nat.mod_upper_bound. }
        exists c. split; [exact Hc |]. by eapply list_elem_of_lookup_2.
      * intros index' Hint'.
        rewrite (getColorForIndex_position index' colors _ Hint' Hne).
        replace (k + length colors) with (k + 1 * length colors) by lia.
        by rewrite Nat.Div0.mod_add.
    + intros z Hint Hneg. unfold getColorForIndex. rewrite Hint.
      destruct (Nat.eqb_spec (length colors) 0) as [? | _]; [done |].
      pose proof (Z.rem_nonpos z (Z.of_nat (length colors))) as Hrem.
      destruct (Z.eqb_spec (Z.rem z (Z.of_nat (length colors))) 0) as [-> | Hnz].
      * reflexivity.
      * destruct (Z.ltb_spec (Z.rem z (Z.of_nat (length colors))) 0); [done | lia].
Qed.

Lemma getColorForIndex_cycles_witness :
  (∀ k, integerValue (of_Z 9) = Some (Z.of_nat k) →
     getColorForIndex (of_Z 9) ["#111111"; "#222222"; "#333333"]
     = ["#111111"; "#222222"; "#333333"] !! (k `mod` 3)
     ∧ (∃ c, getColorForIndex (of_Z 9) ["#111111"; "#222222"; "#333333"] = Some c
             ∧ c ∈ ["#111111"; "#222222"; "#333333"])
     ∧ (∀ index',
          integerValue index' = Some (Z.of_nat (k + 3)) →
          getColorForIndex index' ["#111111"; "#222222"; "#333333"]
          = getColorForIndex (of_Z 9) ["#111111"; "#222222"; "#333333"]))
  ∧ (∀ z, integerValue (of_Z 9) = Some z → (z < 0)%Z →
       getColorForIndex (of_Z 9) ["#111111"; "#222222"; "#333333"]
       = if (Z.rem z 3 =? 0)%Z
         then ["#111111"; "#222222"; "#333333"] !! 0 else None).
Proof.
  apply (proj2 (proj2 (getColorForIndex_cycles (of_Z 9)
                         ["#111111"; "#222222"; "#333333"]))).
  discriminate.
Defined.

Example getColorForIndex_samples :
  getColorForIndex (of_Z 9) ["#111111"; "#222222"; "#333333"] = Some "#111111"
  ∧ getColorForIndex (of_Z (-3)) ["#111111"; "#222222"; "#333333"] = Some "#111111"
  ∧ getColorForIndex (of_Z (-1)) ["#111111"; "#222222"; "#333333"] = None
  ∧ getColorForIndex (StringToNumber "1.5") ["#111111"; "#222222"; "#333333"] = None
  ∧ getColorForIndex NaN ["#111111"; "#222222"; "#333333"] = None
  ∧ getColorForIndex (of_Z 4) [] = None.
Proof. by vm_compute. Qed.

Lemma find_theme_sound (themeName : string) (theme : ColorTheme) :
  getThemeByName themeName = Some theme →
  theme ∈ COLOR_THEMES ∧ name theme = themeName.
Proof.
  intros H. apply find_some in H as [Hin Heq].
  split; [by apply list_elem_of_In | by apply String.eqb_eq].
Qed.

(** X2. Theme lookup by name is a round trip on the theme table: every
    theme is found again under its own name, a theme that is found
    carries the requested name, and nothing is found exactly when no
    theme has that name. *)
Theorem getThemeByName_round_trip :
  (∀ theme, theme ∈ COLOR_THEMES → getThemeByName (name theme) = Some theme)
  ∧ (∀ themeName theme,
       getThemeByName themeName = Some theme →
       theme ∈ COLOR_THEMES ∧ name theme = themeName)
  ∧ (∀ themeName,
       getThemeByName themeName = None
       ↔ ∀ theme, theme ∈ COLOR_THEMES → name theme ≠ themeName).
Proof.
  split; [| split].
  - intros theme H.
    repeat (apply elem_of_cons in H as [-> | H]; [reflexivity |]).
    by apply elem_of_nil in H.
  - apply find_theme_sound.
  - intros themeName. split.
    + intros Hnone theme Hin Heq.
      pose proof (find_none _ _ Hnone theme) as Hf.
      rewrite <- list_elem_of_In in Hf. specialize (Hf Hin).
      cbv beta in Hf. rewrite Heq, String.eqb_refl in Hf. discriminate Hf.
    + intros Hall. destruct (getThemeByName themeName) as [theme |] eqn:E;
        [| reflexivity].
      apply find_theme_sound in E as [Hin Heq]. by destruct (Hall theme Hin).
Qed.

(** X3. Every theme that can be looked up has eight colours, so a
    colour picked from it at a non-negative integer index is never
    [undefined]; the built-in palette of the chart component is the one
    of the theme called Default. *)
Theorem theme_colour_defined (themeName : string) (theme : ColorTheme)
    (index : number) (k : nat) :
  getThemeByName themeName = Some theme →
  integerValue index = Some (Z.of_nat k) →
  length (colors theme) = 8
  ∧ is_Some (getColorForIndex index (colors theme))
  ∧ (themeName = "Default" → colors theme = ChartDisplay.DEFAULT_COLORS).
Proof.
  intros Hfind Hint.
  destruct (find_theme_sound themeName theme Hfind) as [Hin Hname].
  assert (Hlen : length (colors theme) = 8).
  { clear Hfind Hname.
    repeat (apply elem_of_cons in Hin as [-> | Hin]; [reflexivity |]).
    by apply elem_of_nil in Hin. }
  split; [exact Hlen |]. split.
  - rewrite (getColorForIndex_position index (colors theme) k Hint).
    + apply lookup_lt_is_Some_2. rewrite Hlen.
      apply Nat.mod_upper_bound. discriminate.
    + intros Hnil. by rewrite Hnil in Hlen.
  - intros ->. vm_compute in Hfind. by injection Hfind as <-.
Qed.

Lemma theme_colour_defined_witness :
  length (colors {| name := "Ocean";
                    colors := ["#0EA5E9"; "#06B6D4"; "#14B8A6"; "#10B981";
                               "#22C55E"; "#84CC16"; "#A3E635"; "#BEF264"] |}) = 8
  ∧ is_Some (getColorForIndex (of_Z 11)
               (colors {| name := "Ocean";
                          colors := ["#0EA5E9"; "#06B6D4"; "#14B8A6"; "#10B981";
                                     "#22C55E"; "#84CC16"; "#A3E635"; "#BEF264"] |}))
  ∧ ("Ocean" = "Default" →
     colors {| name := "Ocean";
               colors := ["#0EA5E9"; "#06B6D4"; "#14B8A6"; "#10B981";
                          "#22C55E"; "#84CC16"; "#A3E635"; "#BEF264"] |}
     = ChartDisplay.DEFAULT_COLORS).
Proof.
  apply (theme_colour_defined "Ocean" _ (of_Z 11) 11); [reflexivity | by vm_compute].
Defined.

End Themes.

(* ===================================================================== *)
(** ** Properties of the manual-mode tables and of the two variants *)
(* ===================================================================== *)

Section ManualTables.

Import ManualMode.

(** X4. In manual mode the three tables agree: a chart kind is enabled
    for a shape exactly when the matrix calls it suitable, exactly when
    it is listed as recommended, and exactly when it is not listed as
    disabled; the entry returned for a shape carries that shape. *)
Theorem isChartEnabled_iff_suitable (kind : ChartType) (shape : DataType) :
  isChartEnabled kind shape = suitable (getChartSuitability kind shape)
  ∧ (kind ∈ recommendedCharts (getDataTypeInfo shape)
     ↔ isChartEnabled kind shape = true)
  ∧ (kind ∈ disabledCharts (getDataTypeInfo shape)
     ↔ isChartEnabled kind shape = false)
  ∧ type (getDataTypeInfo shape) = shape.
Proof.
  split; [by destruct shape, kind |].
  split; [| split; [| by destruct shape]].
  - destruct shape, kind; cbn; split; intros H; try reflexivity;
      try discriminate H; try (repeat constructor);
      exfalso; repeat (apply elem_of_cons in H as [H | H]; [discriminate H |]);
      by apply elem_of_nil in H.
  - destruct shape, kind; cbn; split; intros H; try reflexivity;
      try discriminate H; try (repeat constructor);
      exfalso; repeat (apply elem_of_cons in H as [H | H]; [discriminate H |]);
      by apply elem_of_nil in H.
Qed.

(** X5. The auto-detecting variant extends the manual one without
    changing it: for each of the three shapes it recommends and
    disrecommends the same chart kinds in the same order, gives the
    same explanation, and the same verdict flag for every chart kind
    (the texts of the verdicts differ only for line and area charts on
    category data). *)
Theorem variants_agree (shape : DataType) (kind : ChartType) :
  Detection.recommended (Detection.getRecommendedCharts (Variants.widen shape))
  = recommendedCharts (getDataTypeInfo shape)
  ∧ Detection.notRecommended (Detection.getRecommendedCharts (Variants.widen shape))
    = disabledCharts (getDataTypeInfo shape)
  ∧ Detection.getDataTypeExplanation (Variants.widen shape)
    = description (getDataTypeInfo shape)
  ∧ suitable (Detection.getChartSuitability kind (Variants.widen shape))
    = suitable (getChartSuitability kind shape)
  ∧ (¬ (shape = category ∧ (kind = line ∨ kind = area)) →
     Detection.getChartSuitability kind (Variants.widen shape)
     = getChartSuitability kind shape).
Proof.
  repeat split; try (by destruct shape); try (by destruct shape, kind).
  intros Hnot. destruct shape, kind; try reflexivity; exfalso; apply Hnot; auto.
Qed.

Lemma variants_agree_witness :
  Detection.getChartSuitability pie (Variants.widen category)
  = getChartSuitability pie category.
Proof.
  apply (proj2 (proj2 (proj2 (proj2 (variants_agree category pie))))).
  intros [_ [H | H]]; discriminate H.
Defined.

End ManualTables.

(* ===================================================================== *)
(** ** Further properties of [detectDataType] *)
(* ===================================================================== *)

Section DetectorShape.

Import Detection.

(** X6. The detected shape is a function of the two dimensions alone,
    never of a cell: category for one row with several columns and for
    several rows with one column, time series for several rows with two
    columns, multi-series in every other case (a 1-by-1 table and the
    empty ones included).  The request value [auto] is never
    returned. *)
Theorem detect_shape_by_dimensions (data : TableData) :
  type (detectDataType data)
  = (if bool_decide (length (rows data) = 1 ∧ 1 < length (columns data))
     then category
     else if bool_decide (1 < length (rows data) ∧ length (columns data) = 2)
     then timeseries
     else if bool_decide (1 < length (rows data) ∧ length (columns data) = 1)
     then category
     else multiseries)
  ∧ type (detectDataType data) ≠ auto.
Proof.
  assert (Hne : type (detectDataType data) ≠ auto).
  { destruct (detect_cases data) as [H | [H | [H | [H | [H | H]]]]];
      cbv zeta in H; destruct H as (Ht & _); rewrite Ht; discriminate. }
  split; [| exact Hne].
  unfold detectDataType, multiSeriesCase.
  destruct (Nat.eqb_spec (length (rows data)) 1) as [R1 | R1];
    destruct (Nat.ltb_spec 1 (length (rows data))) as [R2 | R2];
    destruct (Nat.ltb_spec 1 (length (columns data))) as [C1 | C1];
    destruct (Nat.eqb_spec (length (columns data)) 2) as [C2 | C2];
    destruct (Nat.eqb_spec (length (columns data)) 1) as [C3 | C3];
    destruct (Nat.leb_spec 3 (length (columns data))) as [C4 | C4];
    try lia; cbn [andb];
    repeat case_bool_decide; try lia;
    repeat match goal with
           | |- context [if ?b then _ else _] => destruct b
           end; reflexivity.
Qed.

(** X7. When the dataset has at most one row or at most one column, the
    whole classification (shape, confidence, charts and reason) depends
    on the two dimensions only: no cell and no column name is read. *)
Theorem detect_small_ignores_cells (d1 d2 : TableData) :
  length (rows d1) = length (rows d2) →
  length (columns d1) = length (columns d2) →
  length (rows d1) ≤ 1 ∨ length (columns d1) ≤ 1 →
  detectDataType d1 = detectDataType d2.
Proof.
  intros Hr Hc Hsmall. unfold detectDataType, multiSeriesCase.
  rewrite <- Hr, <- Hc.
  destruct (Nat.eqb_spec (length (rows d1)) 1) as [R1 | R1];
    destruct (Nat.ltb_spec 1 (length (rows d1))) as [R2 | R2];
    destruct (Nat.ltb_spec 1 (length (columns d1))) as [C1 | C1];
    destruct (Nat.eqb_spec (length (columns d1)) 2) as [C2 | C2];
    destruct (Nat.eqb_spec (length (columns d1)) 1) as [C3 | C3];
    destruct (Nat.leb_spec 3 (length (columns d1))) as [C4 | C4];
    try lia; reflexivity.
Qed.

Lemma detect_small_ignores_cells_witness :
  detectDataType Samples.sales
  = detectDataType
      {| name := "Other";
         columns := ["x"; "y"; "z"];
         rows := [ {[ "x" := VStr "text" ]} ] |}.
Proof. apply detect_small_ignores_cells; cbn; lia. Defined.

(** X8. With more than one row and exactly two columns the
    classification depends on the first-column values only: the metric
    column is never read. *)
Theorem detect_two_columns_ignores_metric (d1 d2 : TableData) :
  1 < length (rows d1) →
  length (columns d1) = 2 →
  length (columns d2) = 2 →
  firstColValues d1 = firstColValues d2 →
  detectDataType d1 = detectDataType d2.
Proof.
  intros Hrows Hc1 Hc2 Hfirst.
  assert (Hlen : length (rows d1) = length (rows d2)).
  { apply (f_equal length) in Hfirst. unfold firstColValues in Hfirst.
    by rewrite !length_map in Hfirst. }
  rewrite (detect_two_columns d1), (detect_two_columns d2) by lia.
  by rewrite Hfirst.
Qed.

Lemma detect_two_columns_ignores_metric_witness :
  detectDataType Samples.revenue
  = detectDataType
      {| name := "Other";
         columns := ["Day"; "Note"];
         rows := [ {[ "Day" := VStr "1"; "Note" := VStr "n/a" ]};
                   {[ "Day" := VStr "2" ]} ] |}.
Proof.
  apply detect_two_columns_ignores_metric.
  - cbn. lia.
  - reflexivity.
  - reflexivity.
  - by vm_compute.
Defined.

(** X9. With more than one row and three or more columns the dataset is
    multi-series, with high confidence exactly when every cell of every
    column but the first is a number or a string that [Number] does not
    turn into [NaN], and low confidence otherwise. *)
Theorem many_columns_confidence (data : TableData) :
  1 < length (rows data) →
  3 ≤ length (columns data) →
  type (detectDataType data) = multiseries
  ∧ (confidence (detectDataType data) = high
     ↔ ∀ col row, col ∈ drop 1 (columns data) → row ∈ rows data →
                  NumericCell (row !! col))
  ∧ (confidence (detectDataType data) = high
     ∨ confidence (detectDataType data) = low).
Proof.
  intros Hrows Hcols. rewrite (detect_many_columns data Hrows Hcols).
  assert (Hall : otherColsNumeric data = true
                 ↔ ∀ col row, col ∈ drop 1 (columns data) → row ∈ rows data →
                              NumericCell (row !! col)).
  { unfold otherColsNumeric. rewrite forallb_forall. split.
    - intros H col row Hcol Hrow.
      apply list_elem_of_In in Hcol. specialize (H col Hcol).
      rewrite forallb_forall in H. apply looksNumeric_spec, H.
      by apply list_elem_of_In.
    - intros H col Hcol. rewrite forallb_forall. intros row Hrow.
      apply looksNumeric_spec, H; by apply list_elem_of_In. }
  destruct (otherColsNumeric data); cbn.
  - split; [reflexivity |]. split; [| by left].
    split; [intros _; by apply Hall | reflexivity].
  - split; [reflexivity |]. split; [| by right].
    split; [discriminate |]. intros H. apply Hall in H. discriminate H.
Qed.

Lemma many_columns_confidence_witness :
  type (detectDataType Samples.regions) = multiseries
  ∧ (confidence (detectDataType Samples.regions) = high
     ↔ ∀ col row, col ∈ drop 1 (columns Samples.regions) →
                  row ∈ rows Samples.regions → NumericCell (row !! col))
  ∧ (confidence (detectDataType Samples.regions) = high
     ∨ confidence (detectDataType Samples.regions) = low).
Proof. apply many_columns_confidence; cbn; lia. Defined.

(** X10. The detector never recommends a chart that the suitability
    matrix rejects for the detected shape, the shorter low-confidence
    lists included. *)
Theorem detected_recommendations_suitable (data : TableData) (kind : ChartType) :
  kind ∈ recommendedCharts (detectDataType data) →
  suitable (getChartSuitability kind (type (detectDataType data))) = true.
Proof.
  destruct (detect_cases data) as [H | [H | [H | [H | [H | H]]]]];
    cbv zeta in H; destruct H as (Ht & _ & Hr); rewrite Ht, Hr; intros Hin;
    repeat (apply elem_of_cons in Hin as [-> | Hin]; [reflexivity |]);
    by apply elem_of_nil in Hin.
Qed.

Lemma detected_recommendations_suitable_witness :
  suitable (getChartSuitability bar (type (detectDataType Samples.mixed))) = true.
Proof.
  apply detected_recommendations_suitable. vm_compute. by left.
Defined.

End DetectorShape.

(* ===================================================================== *)
(** ** Further properties of the chart component *)
(* ===================================================================== *)

Section ChartRecords.

Import ManualMode ChartDisplay.

Lemma plotValue_own (v : value) :
  plotValue (ofValue v)
  = Num match v with
        | VStr s => or_zero (StringToNumber s)
        | VNum n => or_zero n
        end.
Proof.
  destruct v as [s | n]; [reflexivity |].
  unfold plotValue, orElse, or_zero. cbn. by destruct (truthy_number n).
Qed.

Lemma plotValue_never_NaN (v : any) (n : number) :
  plotValue v = Num n → isNaN n = false.
Proof.
  unfold plotValue, orElse, or_zero.
  destruct v as [| s | m | member]; cbn.
  - by intros [= <-].
  - intros [= <-]. by destruct (StringToNumber s).
  - destruct (truthy_number m) eqn:Hm; intros [= <-]; [by destruct m | done].
  - discriminate.
Qed.

Lemma plotValue_kind (v : any) :
  (∃ n, plotValue v = Num n ∧ isNaN n = false)
  ∨ (∃ member, plotValue v = Inherited member).
Proof.
  destruct v as [| s | m | member].
  - left. by eexists.
  - left. eexists. split; [apply (plotValue_own (VStr s)) |].
    eapply plotValue_never_NaN. apply (plotValue_own (VStr s)).
  - left. exists (or_zero m). split.
    + unfold plotValue, orElse, or_zero. cbn. by destruct (truthy_number m).
    + eapply plotValue_never_NaN. apply (plotValue_own (VNum m)).
  - right. by eexists.
Qed.

Lemma plotValue_cell (row : gmap string value) (key : string) :
  is_Some (row !! key) ∨ inherited key = false →
  ∃ n, plotValue (getCell row key) = Num n ∧ isNaN n = false.
Proof.
  intros H. destruct (row !! key) as [v |] eqn:Hcell.
  - rewrite (getCell_own _ _ _ Hcell), plotValue_own. eexists. split; [reflexivity |].
    eapply plotValue_never_NaN. apply plotValue_own.
  - destruct H as [[? ?] | Hinh]; [done |].
    rewrite (getCell_missing _ _ Hcell Hinh). by eexists.
Qed.

(** Where an entry of the result comes from. *)
Lemma prepareChartData_entries (data : TableData) (entry : ChartEntry) :
  entry ∈ prepareChartData data →
  (∃ i col,
     default category (dataType data) = category
     ∧ length (rows data) = 1 ∧ 1 < length (columns data)
     ∧ columns data !! i = Some col
     ∧ entry = SliceEntry (categorySlice data i col))
  ∨ (∃ i row,
       default category (dataType data) = timeseries
       ∧ rows data !! i = Some row
       ∧ entry = ChartRow (timeSeriesRow data i row))
  ∨ (∃ row,
       default category (dataType data) ≠ timeseries
       ∧ ¬ (default category (dataType data) = category
            ∧ length (rows data) = 1 ∧ 1 < length (columns data))
       ∧ row ∈ rows data
       ∧ entry = ChartRow (seriesRow data row)).
Proof.
  unfold prepareChartData.
  destruct (Nat.eqb_spec (length (rows data)) 1) as [E | NE];
    destruct (Nat.ltb_spec 1 (length (columns data))) as [L | NL];
    destruct (default category (dataType data));
    repeat case_bool_decide; cbn [andb]; try congruence; intros Hin;
    try (apply elem_of_lookup_imap_1 in Hin as (i & x & -> & Hx));
    try (apply list_elem_of_fmap_1 in Hin as (row & -> & Hrow));
    first [ left; by eauto 10
          | right; left; by eauto 10
          | right; right; exists row; repeat split; (done || lia || tauto) ].
Qed.

(** X11. No magnitude the chart plots is [NaN].  For a column that is
    not named like a member of [Object.prototype], the value of its
    slice and its property in a time-series record are numbers other
    than [NaN]. *)
Theorem plotted_values_are_numbers (data : TableData) (entry : ChartEntry) :
  entry ∈ prepareChartData data →
  match entry with
  | SliceEntry s =>
      (∀ n, slice_value s = Num n → isNaN n = false)
      ∧ (inherited (slice_name s) = false →
         ∃ n, slice_value s = Num n ∧ isNaN n = false)
  | ChartRow fields =>
      dataType data = Some timeseries →
      ∀ col, col ∈ columns data →
        (∀ n, fields !! col = Some (Num n) → isNaN n = false)
        ∧ (inherited col = false →
           ∃ n, fields !! col = Some (Num n) ∧ isNaN n = false)
  end.
Proof.
  intros Hin.
  destruct (prepareChartData_entries data entry Hin)
    as [(i & col & _ & _ & _ & _ & ->)
       | [(i & row & _ & _ & ->) | (row & Hts & _ & _ & ->)]].
  - cbn [categorySlice slice_value slice_name]. split.
    + apply plotValue_never_NaN.
    + intros Hinh. unfold firstRowCell.
      destruct (rows data !! 0) as [row |]; [| by eexists].
      apply plotValue_cell. by right.
  - intros _ col Hcol. split.
    + intros n Hn. rewrite timeSeriesRow_lookup in Hn.
      destruct (decide (col ∈ columns data ∧ col ≠ "__proto__")) as [_ | Hnot].
      * injection Hn as Hn. by eapply plotValue_never_NaN.
      * assert (col = "__proto__") as ->.
        { destruct (decide (col = "__proto__")); [done |]. by destruct Hnot. }
        by vm_compute in Hn.
    + intros Hinh. rewrite timeSeriesRow_lookup.
      rewrite decide_True.
      * destruct (plotValue_cell row col (or_intror Hinh)) as (n & -> & Hn).
        by exists n.
      * split; [done |]. intros ->. by vm_compute in Hinh.
  - intros Hshape. rewrite Hshape in Hts. by destruct Hts.
Qed.

Lemma plotted_values_are_numbers_witness :
  (∀ n, slice_value
          (categorySlice (Samples.withShape Samples.sales category) 0 "Jan")
        = Num n → isNaN n = false)
  ∧ (inherited
       (slice_name (categorySlice (Samples.withShape Samples.sales category) 0 "Jan"))
     = false →
     ∃ n, slice_value
            (categorySlice (Samples.withShape Samples.sales category) 0 "Jan")
          = Num n ∧ isNaN n = false).
Proof.
  apply (plotted_values_are_numbers (Samples.withShape Samples.sales category)
           (SliceEntry (categorySlice (Samples.withShape Samples.sales category) 0 "Jan"))).
  vm_compute. by left.
Defined.

(** X12. The transpose: for the category shape on a dataset with
    exactly one row and more than one column, the entry at each column's
    position is a slice named after the column, coloured from the
    palette by position, cyclically (always defined with the built-in
    palette).  Its value is the row's cell converted to a number, with
    0 in place of [NaN] and of zero; for a missing cell it is 0, except
    under a column named like a member of [Object.prototype], where it
    is the inherited object. *)
Theorem category_transpose (data : TableData) (row : gmap string value)
    (i : nat) (col : string) :
  default category (dataType data) = category →
  rows data = [row] →
  1 < length (columns data) →
  columns data !! i = Some col →
  prepareChartData data !! i
  = Some (SliceEntry
            {| slice_name := col;
               slice_value := match row !! col with
                              | Some (VStr s) => Num (or_zero (StringToNumber s))
                              | Some (VNum n) => Num (or_zero n)
                              | None => if inherited col then Inherited col
                                        else Num (S754_zero false)
                              end;
               slice_color := COLORS data !! (i `mod` length (COLORS data)) |})
  ∧ (colors data = None →
     is_Some (COLORS data !! (i `mod` length (COLORS data)))).
Proof.
  intros Hshape Hrows Hcols Hcol. split.
  - unfold prepareChartData. rewrite Hshape, Hrows.
    rewrite bool_decide_eq_true_2 by reflexivity.
    destruct (Nat.ltb_spec 1 (length (columns data))) as [_ | Hle]; [| lia].
    cbn [length Nat.eqb andb].
    rewrite list_lookup_imap, Hcol. cbn [fmap option_fmap option_map].
    unfold categorySlice. rewrite Hrows. unfold firstRowCell.
    cbn [lookup list_lookup]. do 3 f_equal.
    destruct (row !! col) as [[s | n] |] eqn:Hcell.
    + by rewrite (getCell_own _ _ _ Hcell), plotValue_own.
    + by rewrite (getCell_own _ _ _ Hcell), plotValue_own.
    + destruct (inherited col) eqn:Hinh.
      * by rewrite (getCell_inherited _ _ Hcell Hinh).
      * by rewrite (getCell_missing _ _ Hcell Hinh).
  - intros Hnone. unfold COLORS. rewrite Hnone. cbn [default].
    apply lookup_lt_is_Some_2. apply Nat.mod_upper_bound. discriminate.
Qed.

Lemma category_transpose_witness :
  prepareChartData (Samples.withShape Samples.sales category) !! 1
  = Some (SliceEntry
            {| slice_name := "Feb";
               slice_value :=
                 match ({[ "Jan" := VStr "10"; "Feb" := VStr "20";
                           "Mar" := VStr "15" ]} : gmap string value) !! "Feb" with
                 | Some (VStr s) => Num (or_zero (StringToNumber s))
                 | Some (VNum n) => Num (or_zero n)
                 | None => if inherited "Feb" then Inherited "Feb"
                           else Num (S754_zero false)
                 end;
               slice_color :=
                 COLORS (Samples.withShape Samples.sales category)
                 !! (1 `mod` length (COLORS (Samples.withShape Samples.sales category))) |})
  ∧ (colors (Samples.withShape Samples.sales category) = None →
     is_Some (COLORS (Samples.withShape Samples.sales category)
              !! (1 `mod` length (COLORS (Samples.withShape Samples.sales category))))).
Proof.
  apply (category_transpose (Samples.withShape Samples.sales category)
           {[ "Jan" := VStr "10"; "Feb" := VStr "20"; "Mar" := VStr "15" ]}
           1 "Feb").
  - reflexivity.
  - reflexivity.
  - cbn. lia.
  - reflexivity.
Defined.

(** X13. A category dataset that is not a single row with several
    columns is prepared exactly as a multi-series dataset with the same
    columns and rows. *)
Theorem category_fallback_is_multiseries (d1 d2 : TableData) :
  default category (dataType d1) = category →
  dataType d2 = Some multiseries →
  columns d1 = columns d2 →
  rows d1 = rows d2 →
  ¬ (length (rows d1) = 1 ∧ 1 < length (columns d1)) →
  prepareChartData d1 = prepareChartData d2.
Proof.
  intros H1 H2 Hc Hr Hguard. unfold prepareChartData, seriesRow.
  rewrite H1, H2, <- Hc, <- Hr. cbn [default].
  rewrite (bool_decide_eq_true_2 (category = category)) by reflexivity.
  rewrite (bool_decide_eq_false_2 (multiseries = category)) by discriminate.
  rewrite !(bool_decide_eq_false_2 (category = _)) by discriminate.
  rewrite (bool_decide_eq_false_2 (multiseries = timeseries)) by discriminate.
  rewrite bool_decide_eq_true_2 by reflexivity. cbn [andb].
  destruct (Nat.eqb_spec (length (rows d1)) 1) as [E | NE];
    destruct (Nat.ltb_spec 1 (length (columns d1))) as [L | NL];
    cbn [andb]; try tauto; reflexivity.
Qed.

Lemma category_fallback_is_multiseries_witness :
  prepareChartData (Samples.withShape Samples.singleColumn category)
  = prepareChartData (Samples.withShape Samples.singleColumn multiseries).
Proof.
  apply category_fallback_is_multiseries; try reflexivity.
  cbn. lia.
Defined.

(** X14. Outside the time-series shape, a record of the result has no
    property but the column names, and no numeric-looking text survives
    in it: a property that holds a string holds the empty string or a
    string that [Number] turns into [NaN]. *)
Theorem series_records_hold_no_numeric_text (data : TableData)
    (fields : gmap string any) (key : string) (v : any) :
  default category (dataType data) ≠ timeseries →
  ChartRow fields ∈ prepareChartData data →
  fields !! key = Some v →
  key ∈ columns data
  ∧ ∀ s, v = Str s → s = "" ∨ isNaN (StringToNumber s) = true.
Proof.
  intros Hshape Hin Hkey.
  destruct (prepareChartData_entries data _ Hin)
    as [(i & col & _ & _ & _ & _ & Heq)
       | [(i & row & Hts & _ & _) | (row & _ & _ & _ & Heq)]];
    [discriminate Heq | by destruct Hshape |].
  injection Heq as ->. unfold seriesRow in Hkey.
  rewrite fillColumns_lookup in Hkey by apply lookup_empty.
  destruct (decide (key ∈ columns data ∧ key ≠ "__proto__")) as [[Hcol _] | _];
    [| by rewrite lookup_empty in Hkey].
  split; [exact Hcol |]. injection Hkey as <-.
  intros s. unfold seriesValue, orElse.
  destruct (getCell row key) as [| s0 | n | member]; cbn.
  - intros [= <-]. by left.
  - destruct (isNaN (StringToNumber s0)) eqn:Hnan; cbn; [| discriminate].
    destruct (String.eqb s0 ""); cbn; intros [= <-]; auto.
  - destruct (truthy_number n); intros [= <-]. by left.
  - discriminate.
Qed.

Lemma series_records_hold_no_numeric_text_witness :
  "Region" ∈ columns (Samples.withShape Samples.regions multiseries)
  ∧ ∀ s, Str "East" = Str s → s = "" ∨ isNaN (StringToNumber s) = true.
Proof.
  apply (series_records_hold_no_numeric_text
           (Samples.withShape Samples.regions multiseries)
           (seriesRow (Samples.withShape Samples.regions multiseries)
              {[ "Region" := VStr "East"; "Q1" := VStr "5"; "Q2" := VStr "7" ]})).
  - discriminate.
  - vm_compute. by left.
  - by vm_compute.
Defined.

End ChartRecords.

(* ===================================================================== *)
(** ** Properties of [renderChart] *)
(* ===================================================================== *)

Section Rendering.

Import ManualMode ChartDisplay.

(** X15. The renderer's gate is the suitability matrix: [renderChart]
    shows a text instead of a chart exactly when the matrix calls the
    chart kind unsuitable for the dataset's shape (category when none
    is stored). *)
Theorem renderChart_gate (data : TableData) (kind : ChartType) :
  (∃ text, renderChart data kind = Message text)
  ↔ suitable (getChartSuitability kind (default category (dataType data))) = false.
Proof.
  unfold renderChart.
  destruct (default category (dataType data)), kind; cbn;
    repeat case_bool_decide; try congruence;
    (split; [intros [text Hm]; first [reflexivity | discriminate Hm]
            | intros Hs; first [discriminate Hs | by eexists]]).
Qed.

Lemma seriesOf_keys (data : TableData) (cols : list string)
    (key : string) (color : option string) :
  (key, color) ∈ seriesOf data cols → key ∈ cols.
Proof.
  unfold seriesOf. intros H.
  apply elem_of_lookup_imap_1 in H as (i & col & [= -> ->] & Hcol).
  by eapply list_elem_of_lookup_2.
Qed.

Lemma timeSeriesRow_label (data : TableData) (i : nat) (row : gmap string value) :
  is_Some (timeSeriesRow data i row !! "indexLabel").
Proof.
  rewrite timeSeriesRow_lookup.
  destruct (decide ("indexLabel" ∈ columns data ∧ _)); [by eexists |].
  rewrite lookup_insert_eq. by eexists.
Qed.

(** X16. Whenever [renderChart] draws a series chart (bars, lines or
    areas over rows), it draws the prepared records, and every property
    it reads is an own property of every record: the key of the x axis
    and the key of every series, a key [__proto__] excepted, under
    which no record ever has an own property. *)
Theorem rendered_series_keys_present (data : TableData) (kind k : ChartType)
    (chartData : list ChartEntry) (xKey : option string)
    (series : list (string * option string)) (stackId : option string) :
  renderChart data kind = SeriesOf k chartData xKey series stackId →
  k = kind
  ∧ chartData = prepareChartData data
  ∧ ∀ entry, entry ∈ chartData →
      ∃ fields,
        entry = ChartRow fields
        ∧ fields !! "__proto__" = None
        ∧ (∀ x, xKey = Some x → x ≠ "__proto__" → is_Some (fields !! x))
        ∧ (∀ key color, (key, color) ∈ series → key ≠ "__proto__" →
                        is_Some (fields !! key)).
Proof.
  intros Hrender.
  assert (Hshape :
    (default category (dataType data) = timeseries
     ∧ xKey = Some "indexLabel" ∧ series = seriesOf data (columns data))
    ∨ (default category (dataType data) = multiseries
       ∧ xKey = columns data !! 0
       ∧ series = seriesOf data (drop 1 (columns data)))
    ∧ k = kind ∧ chartData = prepareChartData data).
  { unfold renderChart in Hrender.
    destruct (default category (dataType data)), kind; cbn in Hrender;
      repeat case_bool_decide; try congruence; try discriminate Hrender;
      injection Hrender as <- <- <- <-; auto. }
  assert (Hk : k = kind ∧ chartData = prepareChartData data).
  { unfold renderChart in Hrender.
    destruct (default category (dataType data)), kind; cbn in Hrender;
      repeat case_bool_decide; try congruence; try discriminate Hrender;
      by injection Hrender as <- <- _ _. }
  destruct Hk as [-> ->]. split; [reflexivity |]. split; [reflexivity |].
  intros entry Hin.
  destruct (prepareChartData_entries data entry Hin)
    as [(i & col & Hcat & _) | [(i & row & Hts & _ & ->) | (row & Hnts & _ & _ & ->)]].
  - destruct Hshape as [(H & _) | ((H & _) & _)]; congruence.
  - destruct Hshape as [(_ & -> & ->) | ((H & _) & _)]; [| congruence].
    eexists. split; [reflexivity |]. split; [| split].
    + rewrite timeSeriesRow_lookup. rewrite decide_False by (by intros [_ ?]).
      by vm_compute.
    + intros x [= <-] _. apply timeSeriesRow_label.
    + intros key color Hkey Hproto. apply seriesOf_keys in Hkey.
      rewrite timeSeriesRow_lookup, decide_True by done.
      by eexists.
  - destruct Hshape as [(H & _) | ((_ & -> & ->) & _)]; [congruence |].
    eexists. split; [reflexivity |]. unfold seriesRow. split; [| split].
    + rewrite fillColumns_lookup by apply lookup_empty.
      rewrite decide_False by (by intros [_ ?]). apply lookup_empty.
    + intros x Hx Hproto. apply list_elem_of_lookup_2 in Hx.
      rewrite fillColumns_lookup by apply lookup_empty.
      rewrite decide_True by done. by eexists.
    + intros key color Hkey Hproto. apply seriesOf_keys in Hkey.
      assert (key ∈ columns data).
      { destruct (columns data) as [| c cs]; [by apply elem_of_nil in Hkey |].
        by right. }
      rewrite fillColumns_lookup by apply lookup_empty.
      rewrite decide_True by done. by eexists.
Qed.

Lemma rendered_series_keys_present_witness :
  line = line
  ∧ prepareChartData (Samples.withShape Samples.regions multiseries)
    = prepareChartData (Samples.withShape Samples.regions multiseries)
  ∧ ∀ entry,
      entry ∈ prepareChartData (Samples.withShape Samples.regions multiseries) →
      ∃ fields,
        entry = ChartRow fields
        ∧ fields !! "__proto__" = None
        ∧ (∀ x, Some "Region" = Some x → x ≠ "__proto__" → is_Some (fields !! x))
        ∧ (∀ key color,
             (key, color) ∈ [("Q1", Some "#3B82F6"); ("Q2", Some "#10B981")] →
             key ≠ "__proto__" → is_Some (fields !! key)).
Proof.
  apply (rendered_series_keys_present
           (Samples.withShape Samples.regions multiseries) line line
           (prepareChartData (Samples.withShape Samples.regions multiseries))
           (Some "Region") [("Q1", Some "#3B82F6"); ("Q2", Some "#10B981")] None).
  reflexivity.
Defined.

Lemma prepareChartData_nil (data : TableData) :
  prepareChartData data = [] ↔ rows data = [].
Proof.
  unfold prepareChartData.
  destruct (rows data) as [| row rs] eqn:Hrows; cbn [length Nat.eqb andb].
  - split; [reflexivity | intros _].
    rewrite andb_false_r. by repeat case_bool_decide.
  - split; [| discriminate]. intros H. apply (f_equal length) in H. revert H.
    destruct (Nat.ltb_spec 1 (length (columns data))) as [L | NL];
      repeat case_match;
      rewrite ?length_imap, ?length_fmap; cbn [length]; intros Hlen; lia.
Qed.

(** X17. The notice that there is nothing to display appears exactly
    when the dataset has no rows, whatever its shape and columns. *)
Theorem noDataNotice_iff_no_rows (data : TableData) :
  noDataNotice data = true ↔ rows data = [].
Proof.
  unfold noDataNotice. rewrite <- prepareChartData_nil.
  destruct (prepareChartData data); cbn; split; (reflexivity || discriminate).
Qed.

End Rendering.

(* ===================================================================== *)
(** ** Properties of the earlier chart component and of the table view *)
(* ===================================================================== *)

Section EarlierChart.

Import ChartDisplay.

(** The runtime's conversion of a number to a string, and the text it
    gives for the inherited object of a given name. *)
Variable numberToString : number → string.
Variable objectToString : string → string.

(** X18. The later chart component extends the earlier one: on a
    dataset without a stored shape it prepares exactly the records the
    earlier component prepared. *)
Theorem legacy_is_default_shape (data : LegacyChartDisplay.TableData) :
  LegacyChartDisplay.prepareChartData data
  = prepareChartData (Variants.upgrade data).
Proof.
  unfold LegacyChartDisplay.prepareChartData, prepareChartData,
    LegacyChartDisplay.isSingleRowMultipleColumns.
  cbn [Variants.upgrade dataType columns rows default].
  rewrite bool_decide_eq_true_2 by reflexivity.
  rewrite !bool_decide_eq_false_2 by discriminate.
  cbn [andb].
  by destruct ((length (LegacyChartDisplay.rows data) =? 1)
               && (1 <? length (LegacyChartDisplay.columns data))).
Qed.

(** X19. The pie data of the earlier component has one slice per
    column for a single row with several columns, where it is the
    transposed record list of [prepareChartData], and one slice per row
    otherwise; no slice value is ever [NaN]: it is a number other than
    [NaN], or the inherited object read for a missing cell under a
    column named like a member of [Object.prototype]. *)
Theorem preparePieData_slices (data : LegacyChartDisplay.TableData) :
  length (LegacyChartDisplay.preparePieData numberToString objectToString data)
  = (if LegacyChartDisplay.isSingleRowMultipleColumns data
     then length (LegacyChartDisplay.columns data)
     else length (LegacyChartDisplay.rows data))
  ∧ (∀ s,
       s ∈ LegacyChartDisplay.preparePieData numberToString objectToString data →
       (∃ n, slice_value s = Num n ∧ isNaN n = false)
       ∨ (∃ member, slice_value s = Inherited member))
  ∧ (LegacyChartDisplay.isSingleRowMultipleColumns data = true →
     LegacyChartDisplay.chartData numberToString objectToString data pie
     = LegacyChartDisplay.prepareChartData data).
Proof.
  unfold LegacyChartDisplay.chartData, LegacyChartDisplay.preparePieData,
    LegacyChartDisplay.prepareChartData.
  destruct (LegacyChartDisplay.isSingleRowMultipleColumns data).
  - split; [apply length_imap |]. split.
    + intros s Hs. apply elem_of_lookup_imap_1 in Hs as (i & col & -> & _).
      apply plotValue_kind.
    + intros _. apply list_eq. intros i.
      rewrite list_lookup_fmap, !list_lookup_imap.
      by destruct (LegacyChartDisplay.columns data !! i).
  - split; [apply length_imap |]. split; [| discriminate].
    intros s Hs. apply elem_of_lookup_imap_1 in Hs as (i & row & -> & _).
    apply plotValue_kind.
Qed.

(** X20. Row-wise pie data (any dataset that is not a single row with
    several columns): the slice of a row is named after the row's cell
    in the first column; a missing cell, the empty string and zero give
    the name "Unknown", except that a missing cell under a column named
    like a member of [Object.prototype] gives the text of the inherited
    object.  The value is read from the second column, or from the
    first one when there is no second column. *)
Theorem preparePieData_rows (data : LegacyChartDisplay.TableData)
    (i : nat) (row : gmap string value) :
  LegacyChartDisplay.isSingleRowMultipleColumns data = false →
  LegacyChartDisplay.rows data !! i = Some row →
  ∃ s,
    LegacyChartDisplay.preparePieData numberToString objectToString data !! i
    = Some s
    ∧ (∀ label,
         LegacyChartDisplay.columns data !! 0 = Some label →
         slice_name s
         = match row !! label with
           | Some (VStr text) => if String.eqb text "" then "Unknown" else text
           | Some (VNum n) =>
               if truthy_number n then numberToString n else "Unknown"
           | None =>
               if inherited label then objectToString label else "Unknown"
           end)
    ∧ (∀ metric,
         LegacyChartDisplay.columns data !! 1 = Some metric → metric ≠ "" →
         slice_value s = plotValue (getCell row metric))
    ∧ (∀ only,
         LegacyChartDisplay.columns data = [only] →
         slice_value s = plotValue (getCell row only)).
Proof.
  intros Hshape Hrow. unfold LegacyChartDisplay.preparePieData.
  rewrite Hshape. rewrite list_lookup_imap, Hrow.
  eexists. split; [reflexivity |]. cbn [slice_name slice_value].
  split; [| split].
  - intros label Hlabel. rewrite Hlabel. cbn [property_key default id].
    unfold getCell, get, orElse.
    destruct (row !! label) as [[text | n] |]; cbn.
    + by destruct (String.eqb text "").
    + by destruct (truthy_number n).
    + by destruct (inherited label).
  - intros metric Hmetric Hne. unfold LegacyChartDisplay.valueColumn.
    rewrite Hmetric.
    by destruct (String.eqb_spec metric "").
  - intros only Hcols. unfold LegacyChartDisplay.valueColumn.
    by rewrite Hcols.
Qed.

End EarlierChart.

Lemma preparePieData_rows_witness :
  ∃ s,
    LegacyChartDisplay.preparePieData FormSamples.noNumbers FormSamples.noObjects
      {| LegacyChartDisplay.name := "Regions";
         LegacyChartDisplay.columns := ["Region"; "Q1"];
         LegacyChartDisplay.rows :=
           [ {[ "Region" := VStr "East"; "Q1" := VStr "5" ]};
             {[ "Q1" := VStr "3" ]} ];
         LegacyChartDisplay.colors := None |} !! 1
    = Some s
    ∧ ChartDisplay.slice_name s = "Unknown"
    ∧ ChartDisplay.slice_value s = Num (of_Z 3).
Proof.
  destruct (preparePieData_rows FormSamples.noNumbers FormSamples.noObjects
              {| LegacyChartDisplay.name := "Regions";
                 LegacyChartDisplay.columns := ["Region"; "Q1"];
                 LegacyChartDisplay.rows :=
                   [ {[ "Region" := VStr "East"; "Q1" := VStr "5" ]};
                     {[ "Q1" := VStr "3" ]} ];
                 LegacyChartDisplay.colors := None |}
              1 {[ "Q1" := VStr "3" ]} eq_refl eq_refl)
    as (s & Hs & Hname & Hvalue & _).
  exists s. split; [exact Hs |]. split.
  - rewrite (Hname "Region" eq_refl). by vm_compute.
  - rewrite (Hvalue "Q1" eq_refl); [by vm_compute | discriminate].
Defined.

Section TableView.

Import DataTable.

(** X21. The table view is a full grid: one body row per data row, each
    with exactly one cell per header cell.  A cell shows the row's
    value when that is a non-empty string or a number other than zero
    and [NaN]; an empty string and zero show as a dash, and so does a
    missing cell, except under a column named like a member of
    [Object.prototype], where the inherited object is handed to the
    view.  No cell is ever given an empty or a false content. *)
Theorem bodyCells_grid (data : TableData) :
  length (bodyCells data) = length (rows data)
  ∧ (∀ cells, cells ∈ bodyCells data → length cells = length (headerCells data))
  ∧ (∀ i j row column,
       rows data !! i = Some row → columns data !! j = Some column →
       ∃ cell,
         bodyCells data !! i ≫= (λ cells, cells !! j) = Some cell
         ∧ truthyAny cell = true
         ∧ cell = match row !! column with
                  | Some v => if truthy v then ofValue v else Str "-"
                  | None => if inherited column then Inherited column
                            else Str "-"
                  end).
Proof.
  unfold bodyCells, headerCells. split; [apply length_fmap |]. split.
  - intros cells Hin. apply list_elem_of_fmap_1 in Hin as (row & -> & _).
    apply length_fmap.
  - intros i j row column Hrow Hcol.
    rewrite list_lookup_fmap, Hrow. cbn [fmap option_fmap option_map mbind option_bind].
    rewrite list_lookup_fmap, Hcol. cbn [fmap option_fmap option_map].
    eexists. split; [reflexivity |]. unfold cellContent, orElse, getCell, get.
    destruct (row !! column) as [[s | n] |]; cbn.
    + destruct (String.eqb s "") eqn:Hs; cbn; by rewrite ?Hs.
    + destruct (truthy_number n) eqn:Hn; cbn; by rewrite ?Hn.
    + by destruct (inherited column).
Qed.

Lemma bodyCells_grid_witness :
  ∃ cell,
    bodyCells {| name := "T"; columns := ["A"; "B"];
                 rows := [ {[ "A" := VStr "x" ]} ] |} !! 0
    ≫= (λ cells, cells !! 1) = Some cell
    ∧ truthyAny cell = true
    ∧ cell = Str "-".
Proof.
  destruct (proj2 (proj2 (bodyCells_grid
              {| name := "T"; columns := ["A"; "B"];
                 rows := [ {[ "A" := VStr "x" ]} ] |}))
              0 1 {[ "A" := VStr "x" ]} "B" eq_refl eq_refl)
    as (cell & Hcell & Htruthy & Heq).
  exists cell. split; [exact Hcell |]. split; [exact Htruthy |].
  rewrite Heq. by vm_compute.
Defined.

End TableView.

Lemma preparePieData_slices_witness :
  LegacyChartDisplay.chartData FormSamples.noNumbers FormSamples.noObjects
    {| LegacyChartDisplay.name := "Sales";
       LegacyChartDisplay.columns := ["Jan"; "Feb"];
       LegacyChartDisplay.rows := [ {[ "Jan" := VStr "10"; "Feb" := VStr "20" ]} ];
       LegacyChartDisplay.colors := None |} pie
  = LegacyChartDisplay.prepareChartData
      {| LegacyChartDisplay.name := "Sales";
         LegacyChartDisplay.columns := ["Jan"; "Feb"];
         LegacyChartDisplay.rows := [ {[ "Jan" := VStr "10"; "Feb" := VStr "20" ]} ];
         LegacyChartDisplay.colors := None |}.
Proof.
  apply (proj2 (proj2 (preparePieData_slices FormSamples.noNumbers
                         FormSamples.noObjects _))).
  reflexivity.
Defined.

(* ===================================================================== *)
(** ** Properties of the form handlers *)
(* ===================================================================== *)

Section FormEditing.

Import App.

Lemma arraySet_in_range {A : Type} (a : list A) (i : nat) (x y : A) :
  a !! i = Some y → arraySet a i x = Some (<[i := x]> a).
Proof.
  intros H. apply lookup_lt_Some in H. unfold arraySet.
  destruct (Nat.ltb_spec i (length a)); [reflexivity | lia].
Qed.

Lemma set_plain {A : Type} (key : string) (x : A) (own : gmap string A) :
  key ≠ "__proto__" → set key x own = <[key := x]> own.
Proof.
  intros Hkey. unfold set.
  destruct (own !! key); [reflexivity |].
  by destruct (String.eqb_spec key "__proto__").
Qed.

Lemma mapM_total {A B : Type} (f : A → option B) (g : A → B) (l : list A) :
  (∀ x, x ∈ l → f x = Some (g x)) → mapM f l = Some (g <$> l).
Proof.
  induction l as [| x l IH]; intros H; [reflexivity |].
  cbn. rewrite (H x) by (by left). cbn.
  rewrite IH; [reflexivity |]. intros y Hy. apply H. by right.
Qed.

(** A row, and a colour table, after a rename between two names that
    the prototype does not interfere with. *)
Lemma renameCell_plain (old value : string) (row : gmap string JS.value) :
  inherited old = false → value ≠ "__proto__" →
  renameCell old value row
  = Some (from_option (λ v, delete old (<[value := v]> row)) row (row !! old)).
Proof.
  intros Hold Hvalue. unfold renameCell.
  destruct (row !! old) as [v |]; cbn; [by rewrite set_plain | by rewrite Hold].
Qed.

Lemma renameColor_plain (old value : string) (cc : gmap string string) :
  inherited old = false → value ≠ "__proto__" →
  renameColor old value cc
  = Some (from_option
            (λ c, if String.eqb c "" then cc else delete old (<[value := c]> cc))
            cc (cc !! old)).
Proof.
  intros Hold Hvalue. unfold renameColor.
  destruct (cc !! old) as [c |]; cbn; [by rewrite set_plain | by rewrite Hold].
Qed.

Lemma moved_lookup (old value key : string) (row : gmap string JS.value) :
  old ≠ value →
  from_option (λ v, delete old (<[value := v]> row)) row (row !! old) !! key
  = if decide (key = old) then None
    else if decide (key = value)
         then match row !! old with Some v => Some v | None => row !! value end
         else row !! key.
Proof.
  intros Hne.
  destruct (decide (key = old)) as [-> | Hko].
  - destruct (row !! old) eqn:E; cbn; [by rewrite lookup_delete_eq | done].
  - destruct (decide (key = value)) as [-> | Hkv].
    + destruct (row !! old) eqn:E; cbn; [| done].
      rewrite lookup_delete_ne by done. by rewrite lookup_insert_eq.
    + destruct (row !! old) eqn:E; cbn; [| done].
      rewrite lookup_delete_ne by done. by rewrite lookup_insert_ne.
Qed.

Lemma moved_back (old value : string) (row : gmap string JS.value) :
  old ≠ value → row !! value = None →
  let moved := from_option (λ v, delete old (<[value := v]> row)) row (row !! old) in
  from_option (λ v, delete value (<[old := v]> moved)) moved (moved !! value) = row.
Proof.
  intros Hne Hfresh moved. apply map_eq. intros key.
  assert (Hne' : value ≠ old) by congruence.
  rewrite (moved_lookup value old key moved Hne').
  unfold moved. rewrite !moved_lookup by done.
  rewrite (decide_False (P := value = old)) by done.
  rewrite (decide_True (P := value = value)) by done.
  rewrite (decide_True (P := old = old)) by done.
  destruct (decide (key = value)) as [-> | Hv]; [done |].
  destruct (decide (key = old)) as [-> | Ho]; [| done].
  rewrite Hfresh. by destruct (row !! old).
Qed.

Lemma recoloured_back (old value : string) (cc : gmap string string) :
  old ≠ value → cc !! value = None →
  let moved :=
    from_option
      (λ c, if String.eqb c "" then cc else delete old (<[value := c]> cc))
      cc (cc !! old) in
  from_option
    (λ c, if String.eqb c "" then moved else delete value (<[old := c]> moved))
    moved (moved !! value)
  = cc.
Proof.
  intros Hne Hfresh moved. unfold moved.
  destruct (cc !! old) as [c |] eqn:Hold; cbn.
  - destruct (String.eqb_spec c "") as [-> | Hc].
    + by rewrite Hfresh.
    + rewrite lookup_delete_ne, lookup_insert_eq by done. cbn.
      destruct (String.eqb_spec c ""); [done |].
      apply map_eq. intros key.
      rewrite lookup_delete. destruct (decide (value = key)) as [<- | Hv]; [done |].
      rewrite lookup_insert. destruct (decide (old = key)) as [<- | Ho]; [done |].
      rewrite lookup_delete_ne, lookup_insert_ne by done. reflexivity.
  - by rewrite Hfresh.
Qed.

Lemma updateColumn_rename (st : FormState) (index : nat) (old value : string) :
  columns st !! index = Some old →
  old ≠ "" → old ≠ value →
  inherited old = false → value ≠ "__proto__" →
  updateColumn index value st
  = Some (setCustomColors
            (from_option
               (λ c, if String.eqb c "" then customColors st
                     else delete old (<[value := c]> (customColors st)))
               (customColors st) (customColors st !! old))
            (setRows
               ((λ row : gmap string JS.value,
                   from_option (λ v, delete old (<[value := v]> row)) row
                               (row !! old))
                <$> rows st)
               (setColumns (<[index := value]> (columns st)) st))).
Proof.
  intros Hcol Hold Hne Hinh Hproto. unfold updateColumn.
  rewrite (arraySet_in_range _ _ _ _ Hcol), Hcol. cbn [mbind option_bind].
  destruct (String.eqb_spec old "") as [? | _]; [done |].
  destruct (String.eqb_spec old value) as [? | _]; [done |].
  cbn [negb andb].
  rewrite (mapM_total _
             (λ row : gmap string JS.value,
                from_option (λ v, delete old (<[value := v]> row)) row (row !! old)))
    by (intros row _; by apply renameCell_plain).
  cbn [mbind option_bind].
  by rewrite renameColor_plain.
Qed.

(** X22. Renaming a column in the form moves every row's cell from the
    old name to the new one and leaves all other cells alone: after
    [updateColumn] on a column whose old name is not empty, differs
    from the new one and is not the name of a member of
    [Object.prototype], with a new name other than [__proto__], no row
    has a cell under the old name, the cell under the new name is the
    one the row had under the old name (or, if it had none, the one it
    already had under the new name), and the column list has the new
    name at that position. *)
Theorem updateColumn_moves_cells (st : FormState) (index : nat)
    (old value : string) :
  columns st !! index = Some old →
  old ≠ "" → old ≠ value →
  inherited old = false → value ≠ "__proto__" →
  ∃ st',
    updateColumn index value st = Some st'
    ∧ columns st' = <[index := value]> (columns st)
    ∧ length (rows st') = length (rows st)
    ∧ ∀ i row, rows st !! i = Some row →
        ∃ row',
          rows st' !! i = Some row'
          ∧ row' !! old = None
          ∧ row' !! value
            = match row !! old with Some v => Some v | None => row !! value end
          ∧ ∀ key, key ≠ old → key ≠ value → row' !! key = row !! key.
Proof.
  intros Hcol Hold Hne Hinh Hproto.
  rewrite (updateColumn_rename st index old value) by done.
  eexists. split; [reflexivity |].
  cbn [columns rows setColumns setRows setCustomColors].
  split; [reflexivity |]. split; [apply length_fmap |].
  intros i row Hrow. eexists.
  rewrite list_lookup_fmap, Hrow. split; [reflexivity |].
  split; [| split].
  - rewrite moved_lookup by done. by rewrite decide_True.
  - rewrite moved_lookup by done.
    rewrite decide_False by (intros ->; done). by rewrite decide_True.
  - intros key Ho Hv. rewrite moved_lookup by done.
    by rewrite !decide_False.
Qed.

Lemma updateColumn_moves_cells_witness :
  ∃ st',
    updateColumn 0 "Date" FormSamples.filled = Some st'
    ∧ columns st' = <[0 := "Date"]> (columns FormSamples.filled)
    ∧ length (rows st') = length (rows FormSamples.filled)
    ∧ ∀ i row, rows FormSamples.filled !! i = Some row →
        ∃ row',
          rows st' !! i = Some row'
          ∧ row' !! "Day" = None
          ∧ row' !! "Date"
            = match row !! "Day" with Some v => Some v | None => row !! "Date" end
          ∧ ∀ key, key ≠ "Day" → key ≠ "Date" → row' !! key = row !! key.
Proof.
  apply (updateColumn_moves_cells FormSamples.filled 0 "Day" "Date");
    [reflexivity | discriminate | discriminate | reflexivity | discriminate].
Defined.

(** X23. Renaming a column and renaming it back restores the form,
    provided neither name is empty or the name of a member of
    [Object.prototype], and the intermediate name is fresh: no row has
    a cell under it and no custom colour is stored for it. *)
Theorem updateColumn_round_trip (st : FormState) (index : nat)
    (old value : string) :
  columns st !! index = Some old →
  old ≠ "" → value ≠ "" → old ≠ value →
  inherited old = false → inherited value = false →
  (∀ row, row ∈ rows st → row !! value = None) →
  customColors st !! value = None →
  updateColumn index value st ≫= updateColumn index old = Some st.
Proof.
  intros Hcol Hold Hvalue Hne Hiold Hivalue Hrows Hcc.
  assert (Hpo : old ≠ "__proto__") by (intros ->; by vm_compute in Hiold).
  assert (Hpv : value ≠ "__proto__") by (intros ->; by vm_compute in Hivalue).
  rewrite (updateColumn_rename st index old value) by done.
  cbn [mbind option_bind].
  rewrite (updateColumn_rename _ index value old); try done.
  - cbn [columns rows customColors setColumns setRows setCustomColors].
    rewrite list_insert_insert_eq, (list_insert_id _ _ _ Hcol).
    rewrite (recoloured_back old value (customColors st)) by done.
    rewrite <- list_fmap_compose.
    rewrite (list_fmap_ext _ id (rows st)).
    + rewrite list_fmap_id. by destruct st.
    + intros i row Hrow. cbn. apply (moved_back old value row); [done |].
      apply Hrows. by eapply list_elem_of_lookup_2.
  - cbn [columns setColumns setRows setCustomColors].
    apply list_lookup_insert_eq. by eapply lookup_lt_Some.
Qed.

Lemma updateColumn_round_trip_witness :
  updateColumn 0 "Date" FormSamples.filled ≫= updateColumn 0 "Day"
  = Some FormSamples.filled.
Proof.
  apply updateColumn_round_trip; try discriminate; try reflexivity.
  intros row Hrow.
  repeat (apply elem_of_cons in Hrow as [-> | Hrow]; [reflexivity |]).
  by apply elem_of_nil in Hrow.
Defined.

(** X24. Removing a column from the form removes its name from the
    column list, keeps the order of the others, and deletes the cell
    and the custom colour stored under that name in every row, leaving
    the cells under every other name as they were. *)
Theorem removeColumn_effect (st : FormState) (index : nat) (removed : string) :
  columns st !! index = Some removed →
  S (length (columns (removeColumn index st))) = length (columns st)
  ∧ (∀ j, j < index → columns (removeColumn index st) !! j = columns st !! j)
  ∧ (∀ j, index ≤ j → columns (removeColumn index st) !! j = columns st !! S j)
  ∧ length (rows (removeColumn index st)) = length (rows st)
  ∧ (∀ i row, rows st !! i = Some row →
       ∃ row',
         rows (removeColumn index st) !! i = Some row'
         ∧ row' !! removed = None
         ∧ ∀ key, key ≠ removed → row' !! key = row !! key)
  ∧ customColors (removeColumn index st) !! removed = None
  ∧ (∀ key, key ≠ removed →
       customColors (removeColumn index st) !! key = customColors st !! key).
Proof.
  intros Hcol. unfold removeColumn. rewrite Hcol.
  cbn [columns rows customColors setColumns setRows setCustomColors
       property_key default id].
  pose proof (lookup_lt_Some _ _ _ Hcol) as Hlt.
  split; [rewrite length_delete by eauto; lia |].
  split; [intros j Hj; by apply list_lookup_delete_lt |].
  split; [intros j Hj; by apply list_lookup_delete_ge |].
  split; [apply length_fmap |].
  split; [| split].
  - intros i row Hrow. exists (delete removed row).
    rewrite list_lookup_fmap, Hrow. split; [reflexivity |].
    split; [apply lookup_delete_eq |].
    intros key Hkey. by apply lookup_delete_ne.
  - apply lookup_delete_eq.
  - intros key Hkey. by apply lookup_delete_ne.
Qed.

Lemma removeColumn_effect_witness :
  S (length (columns (removeColumn 0 FormSamples.filled)))
  = length (columns FormSamples.filled)
  ∧ (∀ j, j < 0 → columns (removeColumn 0 FormSamples.filled) !! j
                  = columns FormSamples.filled !! j)
  ∧ (∀ j, 0 ≤ j → columns (removeColumn 0 FormSamples.filled) !! j
                  = columns FormSamples.filled !! S j)
  ∧ length (rows (removeColumn 0 FormSamples.filled))
    = length (rows FormSamples.filled)
  ∧ (∀ i row, rows FormSamples.filled !! i = Some row →
       ∃ row',
         rows (removeColumn 0 FormSamples.filled) !! i = Some row'
         ∧ row' !! "Day" = None
         ∧ ∀ key, key ≠ "Day" → row' !! key = row !! key)
  ∧ customColors (removeColumn 0 FormSamples.filled) !! "Day" = None
  ∧ (∀ key, key ≠ "Day" →
       customColors (removeColumn 0 FormSamples.filled) !! key
       = customColors FormSamples.filled !! key).
Proof. apply (removeColumn_effect FormSamples.filled 0 "Day"). reflexivity. Defined.

(** X25. Writing a cell of an existing row changes that cell only: the
    row then holds the entered text under that column name, its other
    cells and all other rows are as before, and no row is added; on the
    position just past the last row, a new row holding that single cell
    is appended. *)
Theorem updateCell_effect (st : FormState) (rowIndex : nat)
    (columnName value : string) (row : gmap string JS.value) :
  rows st !! rowIndex = Some row →
  (∃ st' row',
     updateCell rowIndex columnName value st = Some st'
     ∧ columns st' = columns st
     ∧ length (rows st') = length (rows st)
     ∧ rows st' !! rowIndex = Some row'
     ∧ row' !! columnName = Some (VStr value)
     ∧ (∀ key, key ≠ columnName → row' !! key = row !! key)
     ∧ (∀ i, i ≠ rowIndex → rows st' !! i = rows st !! i))
  ∧ (∃ st',
       updateCell (length (rows st)) columnName value st = Some st'
       ∧ rows st' = rows st ++ [ {[ columnName := VStr value ]} ]).
Proof.
  intros Hrow. split.
  - unfold updateCell. rewrite Hrow. cbn [default id].
    rewrite (arraySet_in_range _ _ _ _ Hrow). cbn [mbind option_bind].
    eexists _, (<[columnName := VStr value]> row). split; [reflexivity |].
    cbn [columns rows setRows].
    pose proof (lookup_lt_Some _ _ _ Hrow) as Hlt.
    split; [reflexivity |]. split; [apply length_insert |].
    split; [by apply list_lookup_insert_eq |].
    split; [apply lookup_insert_eq |].
    split; [intros key Hkey; by apply lookup_insert_ne |].
    intros i Hi. by apply list_lookup_insert_ne.
  - unfold updateCell, arraySet.
    rewrite (lookup_ge_None_2 (rows st) (length (rows st))) by lia.
    rewrite Nat.ltb_irrefl, Nat.eqb_refl. cbn [default mbind option_bind].
    eexists. split; [reflexivity |]. cbn [rows setRows].
    by rewrite insert_empty.
Qed.

Lemma updateCell_effect_witness :
  ∃ st' row',
    updateCell 1 "Revenue" "175" FormSamples.filled = Some st'
    ∧ columns st' = columns FormSamples.filled
    ∧ length (rows st') = length (rows FormSamples.filled)
    ∧ rows st' !! 1 = Some row'
    ∧ row' !! "Revenue" = Some (VStr "175")
    ∧ (∀ key, key ≠ "Revenue" →
         row' !! key
         = ({[ "Day" := VStr "2"; "Revenue" := VStr "150" ]} : gmap string JS.value)
           !! key)
    ∧ (∀ i, i ≠ 1 → rows st' !! i = rows FormSamples.filled !! i).
Proof.
  apply (proj1 (updateCell_effect FormSamples.filled 1 "Revenue" "175"
                  {[ "Day" := VStr "2"; "Revenue" := VStr "150" ]} eq_refl)).
Defined.

End FormEditing.

(* ===================================================================== *)
(** ** Properties of [getColors] and [generateTable] *)
(* ===================================================================== *)

Section FormColours.

Import App ColorThemes.

Lemma themeColors_length (st : FormState) : length (themeColors st) = 8.
Proof.
  unfold themeColors.
  destruct (List.find _ COLOR_THEMES) as [theme |] eqn:Hfind; [| reflexivity].
  apply find_some in Hfind as [Hin _]. apply list_elem_of_In in Hin.
  repeat (apply elem_of_cons in Hin as [-> | Hin]; [reflexivity |]).
  by apply elem_of_nil in Hin.
Qed.

Lemma themeColors_lookup (st : FormState) (i : nat) :
  is_Some (themeColors st !! (i `mod` length (themeColors st))).
Proof.
  apply lookup_lt_is_Some_2. rewrite themeColors_length.
  apply Nat.mod_upper_bound. discriminate.
Qed.

(** X26. The palette the form hands over never has a hole.  Without
    custom colours it is the eight colours of the selected theme (of
    the first theme when the name selects none); with custom colours it
    has one entry per form column: the custom colour of that column
    when one is stored and not empty; otherwise, for a column not named
    like a member of [Object.prototype], the theme colour at the
    column's position, cyclically; and for a column named like such a
    member and without a stored colour, the inherited member itself,
    which is not a colour. *)
Theorem getColors_defined (st : FormState) :
  Forall (λ c, c ≠ Undefined) (getColors st)
  ∧ length (getColors st)
    = (if useCustomColors st then length (columns st) else 8)
  ∧ (useCustomColors st = false → getColors st = Str <$> themeColors st)
  ∧ (useCustomColors st = true →
     ∀ i col, columns st !! i = Some col →
       (∀ c, customColors st !! col = Some c → c ≠ "" →
             getColors st !! i = Some (Str c))
       ∧ (customColors st !! col = Some ""
          ∨ (customColors st !! col = None ∧ inherited col = false) →
          ∃ c, themeColors st !! (i `mod` 8) = Some c
               ∧ getColors st !! i = Some (Str c))
       ∧ (customColors st !! col = None → inherited col = true →
          getColors st !! i = Some (Inherited col))).
Proof.
  unfold getColors. destruct (useCustomColors st).
  - split; [| split; [apply length_imap | split; [discriminate |]]].
    + apply Forall_forall. intros c Hc.
      apply elem_of_lookup_imap_1 in Hc as (i & col & -> & _).
      destruct (themeColors_lookup st i) as [themed Hthemed].
      rewrite Hthemed. unfold get.
      destruct (customColors st !! col) as [c |].
      * by destruct c.
      * by destruct (inherited col).
    + intros _ i col Hcol. rewrite list_lookup_imap, Hcol.
      cbn [fmap option_fmap option_map].
      destruct (themeColors_lookup st i) as [themed Hthemed].
      rewrite Hthemed. rewrite themeColors_length in Hthemed.
      unfold get. split; [| split].
      * intros c -> Hc. by destruct c.
      * intros [-> | [-> ->]]; by exists themed.
      * by intros -> ->.
  - split; [| split; [| split; [reflexivity | discriminate]]].
    + apply Forall_fmap, Forall_forall. by intros c _.
    + by rewrite length_fmap, themeColors_length.
Qed.

Lemma getColors_defined_witness :
  getColors FormSamples.filled !! 1 = Some (Str "#123456")
  ∧ ∃ c, themeColors FormSamples.filled !! (0 `mod` 8) = Some c
         ∧ getColors FormSamples.filled !! 0 = Some (Str c).
Proof.
  destruct (proj2 (proj2 (proj2 (getColors_defined FormSamples.filled))) eq_refl
              1 "Revenue" eq_refl) as [Hcustom _].
  destruct (proj2 (proj2 (proj2 (getColors_defined FormSamples.filled))) eq_refl
              0 "Day" eq_refl) as (_ & Hthemed & _).
  split.
  - apply Hcustom; [reflexivity | discriminate].
  - apply Hthemed. by right.
Defined.

End FormColours.

Section Generating.

Import App.

(** The runtime's conversion of a number to a string. *)
Variable numberToString : number → string.

Lemma rowFilled_spec (row : gmap string value) :
  rowFilled numberToString row = true
  ↔ ∃ key v, row !! key = Some v ∧ cellFilled numberToString v = true.
Proof.
  unfold rowFilled. rewrite existsb_exists. split.
  - intros ([key v] & Hin & Hfilled).
    apply list_elem_of_In, elem_of_map_to_list in Hin. by exists key, v.
  - intros (key & v & Hlookup & Hfilled). exists (key, v).
    split; [| exact Hfilled].
    by apply list_elem_of_In, elem_of_map_to_list.
Qed.

Lemma filter_sublist {A : Type} (f : A → bool) (l : list A) :
  sublist (List.filter f l) l.
Proof.
  induction l as [| x l IH]; cbn; [constructor |].
  destruct (f x); by constructor.
Qed.

Lemma filter_nonempty {A : Type} (f : A → bool) (l : list A) :
  (length (List.filter f l) =? 0) = false ↔ ∃ x, x ∈ l ∧ f x = true.
Proof.
  split.
  - intros H. destruct (List.filter f l) as [| x l'] eqn:E; [discriminate H |].
    exists x. assert (Hin : In x (List.filter f l)) by (rewrite E; by left).
    apply filter_In in Hin as [Hin Hf]. split; [by apply list_elem_of_In | done].
  - intros (x & Hin & Hf).
    assert (Hx : In x (List.filter f l)).
    { apply filter_In. split; [by apply list_elem_of_In | done]. }
    by destruct (List.filter f l).
Qed.

Lemma detectDataType_not_auto (data : Detection.TableData) :
  Detection.type (Detection.detectDataType data) ≠ Detection.auto.
Proof.
  destruct (detect_cases data) as [H | [H | [H | [H | [H | H]]]]];
    cbv zeta in H; destruct H as (Ht & _); rewrite Ht; discriminate.
Qed.

(** X27. [generateTable] produces a table exactly when the table name
    is not blank, some column name is not blank and some row has a
    filled cell (a non-empty value whose text is not blank); in every
    other case it raises an alert and changes nothing.  The table it
    stores keeps, in their order, exactly the non-blank columns and the
    rows with a filled cell, so it has at least one column and one row;
    the form's own columns and rows are left as entered and the view
    returns to the table. *)
Theorem generateTable_outcome (st : FormState) :
  ((∃ st', generateTable numberToString st = Updated st')
   ↔ isBlank (tableName st) = false
     ∧ (∃ col, col ∈ columns st ∧ isBlank col = false)
     ∧ (∃ row key v, row ∈ rows st ∧ row !! key = Some v
                     ∧ cellFilled numberToString v = true))
  ∧ ∀ st', generateTable numberToString st = Updated st' →
      ∃ data,
        tableData st' = Some data
        ∧ Table.name data = tableName st
        ∧ Table.columns data ≠ [] ∧ Table.rows data ≠ []
        ∧ (∀ col, col ∈ Table.columns data
                  ↔ col ∈ columns st ∧ isBlank col = false)
        ∧ (∀ row, row ∈ Table.rows data
                  ↔ row ∈ rows st ∧ rowFilled numberToString row = true)
        ∧ sublist (Table.columns data) (columns st)
        ∧ sublist (Table.rows data) (rows st)
        ∧ columns st' = columns st ∧ rows st' = rows st
        ∧ viewType st' = table.
Proof.
  unfold generateTable.
  pose proof (filter_nonempty (λ col, negb (isBlank col)) (columns st)) as Hcols.
  pose proof (filter_nonempty (rowFilled numberToString) (rows st)) as Hrows.
  fold (validColumns st) in Hcols. fold (validRows numberToString st) in Hrows.
  destruct (isBlank (tableName st)); cbn [orb].
  { split; [| intros st' H; discriminate H].
    split; [intros [st' H]; discriminate H | intros [H _]; discriminate H]. }
  destruct (length (validColumns st) =? 0) eqn:Ec.
  { split; [| intros st' H; discriminate H].
    split; [intros [st' H]; discriminate H |].
    intros (_ & (col & Hin & Hcol) & _).
    assert (Hfalse : true = false); [| discriminate Hfalse].
    apply Hcols. exists col. split; [done | by rewrite Hcol]. }
  destruct (length (validRows numberToString st) =? 0) eqn:Er.
  { split; [| intros st' H; discriminate H].
    split; [intros [st' H]; discriminate H |].
    intros (_ & _ & (row & key & v & Hin & Hkey & Hv)).
    assert (Hfalse : true = false); [| discriminate Hfalse].
    apply Hrows. exists row. split; [done |]. apply rowFilled_spec. eauto. }
  split.
  - split; [intros _ | intros _; by eexists].
    split; [reflexivity |]. split.
    + destruct (proj1 Hcols eq_refl) as (col & Hin & Hcol).
      exists col. split; [done |]. by apply negb_true_iff.
    + destruct (proj1 Hrows eq_refl) as (row & Hin & Hrow).
      apply rowFilled_spec in Hrow as (key & v & Hkey & Hv). eauto 10.
  - intros st' [= <-]. eexists. split; [reflexivity |].
    cbn [Table.name Table.columns Table.rows columns rows viewType].
    split; [reflexivity |].
    split; [by destruct (validColumns st) |].
    split; [by destruct (validRows numberToString st) |].
    split; [| split; [| split; [apply filter_sublist
                              | split; [apply filter_sublist | done]]]].
    + intros col. unfold validColumns.
      rewrite list_elem_of_In, filter_In, <- list_elem_of_In, negb_true_iff.
      reflexivity.
    + intros row. unfold validRows.
      rewrite list_elem_of_In, filter_In, <- list_elem_of_In. reflexivity.
Qed.

(** X28. The shape stored with a generated table is always a real
    shape, never the request value [auto]: the shape chosen in the
    form, or under [auto] the detected one, which is also what the form
    remembers as detected.  The chart recommendations shown for the
    table are therefore the ones of that shape. *)
Theorem generateTable_stores_shape (st st' : FormState) :
  generateTable numberToString st = Updated st' →
  ∃ data shape,
    tableData st' = Some data
    ∧ Table.dataType data = Some shape
    ∧ shape ≠ Detection.auto
    ∧ (dataTypeMode st ≠ Detection.auto → shape = dataTypeMode st)
    ∧ (dataTypeMode st = Detection.auto → detectedDataType st' = Some shape)
    ∧ detectedDataType st'
      = Some (Detection.type
                (Detection.detectDataType
                   {| Detection.name := tableName st;
                      Detection.columns := validColumns st;
                      Detection.rows := validRows numberToString st |}))
    ∧ getChartRecommendations st' = Detection.getRecommendedCharts shape.
Proof.
  unfold generateTable.
  destruct (isBlank (tableName st) || (length (validColumns st) =? 0));
    [discriminate |].
  destruct (length (validRows numberToString st) =? 0); [discriminate |].
  intros [= <-]. eexists _, _. split; [reflexivity |].
  cbn [Table.dataType detectedDataType]. split; [reflexivity |].
  unfold getChartRecommendations. cbn [tableData Table.dataType default id].
  pose proof (detectDataType_not_auto
                {| Detection.name := tableName st;
                   Detection.columns := validColumns st;
                   Detection.rows := validRows numberToString st |}) as Hdet.
  destruct (dataTypeMode st); repeat split; try done.
Qed.

(** X29. When custom colours are in use and no column name of the form
    is blank, the stored table has the form's columns and its palette
    is aligned with them: the colour at a column's position is the
    custom colour stored for that column, when there is one. *)
Theorem generateTable_palette_aligned (st st' : FormState) :
  generateTable numberToString st = Updated st' →
  useCustomColors st = true →
  (∀ col, col ∈ columns st → isBlank col = false) →
  ∃ data palette,
    tableData st' = Some data
    ∧ Table.columns data = columns st
    ∧ Table.colors data = Some palette
    ∧ length palette = length (Table.columns data)
    ∧ ∀ i col c,
        Table.columns data !! i = Some col →
        customColors st !! col = Some c → c ≠ "" →
        palette !! i = Some (Str c).
Proof.
  unfold generateTable.
  destruct (isBlank (tableName st) || (length (validColumns st) =? 0));
    [discriminate |].
  destruct (length (validRows numberToString st) =? 0); [discriminate |].
  intros [= <-] Hcustom Hcols. eexists _, _. split; [reflexivity |].
  cbn [Table.columns Table.colors].
  assert (Hvalid : validColumns st = columns st).
  { unfold validColumns. apply forallb_filter_id, forallb_forall.
    intros col Hin. apply negb_true_iff, Hcols. by apply list_elem_of_In. }
  rewrite Hvalid. split; [reflexivity |]. split; [reflexivity |].
  unfold getColors. rewrite Hcustom. split; [apply length_imap |].
  intros i col c Hcol Hc Hne. rewrite list_lookup_imap, Hcol.
  cbn [fmap option_fmap option_map]. unfold get. rewrite Hc.
  by destruct c.
Qed.

End Generating.

Lemma generateTable_outcome_witness :
  ∃ data,
    App.tableData
      (match App.generateTable FormSamples.noNumbers FormSamples.filled with
       | App.Updated st' => st'
       | App.Alert _ => FormSamples.filled
       end) = Some data
    ∧ App.Table.columns data ≠ [] ∧ App.Table.rows data ≠ [].
Proof.
  destruct (proj2 (generateTable_outcome FormSamples.noNumbers FormSamples.filled)
              _ eq_refl)
    as (data & Hdata & _ & Hcols & Hrows & _).
  exists data. split; [exact Hdata |]. by split.
Defined.

Lemma generateTable_stores_shape_witness :
  ∃ data shape,
    App.tableData
      (match App.generateTable FormSamples.noNumbers FormSamples.filled with
       | App.Updated st' => st'
       | App.Alert _ => FormSamples.filled
       end) = Some data
    ∧ App.Table.dataType data = Some shape
    ∧ shape ≠ Detection.auto.
Proof.
  destruct (generateTable_stores_shape FormSamples.noNumbers FormSamples.filled
              _ eq_refl)
    as (data & shape & Hdata & Hshape & Hne & _).
  exists data, shape. by repeat split.
Defined.

Lemma generateTable_palette_aligned_witness :
  ∃ data palette,
    App.tableData
      (match App.generateTable FormSamples.noNumbers FormSamples.filled with
       | App.Updated st' => st'
       | App.Alert _ => FormSamples.filled
       end) = Some data
    ∧ App.Table.colors data = Some palette
    ∧ palette !! 1 = Some (Str "#123456").
Proof.
  destruct (generateTable_palette_aligned FormSamples.noNumbers
              FormSamples.filled _ eq_refl eq_refl)
    as (data & palette & Hdata & Hcols & Hpalette & _ & Hcolour).
  - intros col Hcol.
    repeat (apply elem_of_cons in Hcol as [-> | Hcol]; [reflexivity |]).
    by apply elem_of_nil in Hcol.
  - exists data, palette. split; [exact Hdata |]. split; [exact Hpalette |].
    apply (Hcolour 1 "Revenue" "#123456"); [by rewrite Hcols | reflexivity | discriminate].
Defined.

(* ===================================================================== *)
(** ** From the recommendation to the drawing *)
(* ===================================================================== *)

Section EndToEnd.

Import ManualMode ChartDisplay.

Lemma renderChart_refuses (data : TableData) (shape : DataType) (kind : ChartType) :
  dataType data = Some shape →
  (∃ text, renderChart data kind = Message text)
  ↔ (shape = category ∧ (kind = line ∨ kind = area))
    ∨ (shape ≠ category ∧ kind = pie).
Proof.
  intros Hshape. unfold renderChart. rewrite Hshape. cbn [default].
  destruct shape, kind; cbn; repeat case_bool_decide; try congruence;
    (split;
     [ intros [text Hm]; try discriminate Hm;
       first [ left; split; [reflexivity | by auto]
             | right; split; [discriminate | reflexivity] ]
     | intros [[Hs [Hk | Hk]] | [Hs Hk]];
       try discriminate Hs; try discriminate Hk; try (by destruct Hs);
       by eexists ]).
Qed.

(** X30. What the form marks as recommended is what the chart component
    draws: for a dataset stored with a shape, a chart kind is on the
    recommended list of that shape exactly when [renderChart] draws it
    rather than showing a refusal text; and every chart kind the
    detector itself recommends for a dataset it gives that shape is
    drawn. *)
Theorem recommended_charts_are_drawn (data : TableData) (shape : DataType)
    (kind : ChartType) :
  dataType data = Some shape →
  (kind ∈ Detection.recommended (Detection.getRecommendedCharts (Variants.widen shape))
   ↔ ¬ ∃ text, renderChart data kind = Message text)
  ∧ (∀ detected : Detection.TableData,
       Detection.type (Detection.detectDataType detected) = Variants.widen shape →
       kind ∈ Detection.recommendedCharts (Detection.detectDataType detected) →
       ¬ ∃ text, renderChart data kind = Message text).
Proof.
  intros Hshape. rewrite (renderChart_refuses data shape kind Hshape). split.
  - destruct shape, kind; cbn; split; intros H;
      try (intros [[Hs [Hk | Hk]] | [Hs Hk]];
           try discriminate Hs; try discriminate Hk; by destruct Hs);
      try (repeat constructor);
      try (exfalso; apply H; first [ left; split; [reflexivity | by auto]
                                   | right; split; [discriminate | reflexivity] ]);
      exfalso; repeat (apply elem_of_cons in H as [H | H]; [discriminate H |]);
      by apply elem_of_nil in H.
  - intros detected Htype Hin Hrefused.
    apply (renderChart_refuses data shape kind Hshape) in Hrefused.
    destruct (detect_cases detected) as [H | [H | [H | [H | [H | H]]]]];
      cbv zeta in H; destruct H as (Ht & _ & Hr);
      rewrite Ht in Htype; rewrite Hr in Hin;
      destruct shape; try discriminate Htype;
      repeat (apply elem_of_cons in Hin as [-> | Hin];
              [destruct Hrefused as [[Hs [Hk | Hk]] | [Hs Hk]];
               first [discriminate Hk | discriminate Hs | by destruct Hs] |]);
      by apply elem_of_nil in Hin.
Qed.

Lemma recommended_charts_are_drawn_witness :
  line ∈ Detection.recommended
           (Detection.getRecommendedCharts (Variants.widen multiseries))
  ↔ ¬ ∃ text,
        renderChart (Samples.withShape Samples.regions multiseries) line
        = Message text.
Proof.
  apply (proj1 (recommended_charts_are_drawn
                  (Samples.withShape Samples.regions multiseries)
                  multiseries line eq_refl)).
Defined.

End EndToEnd.

Lemma getThemeByName_round_trip_witness :
  ColorThemes.getThemeByName "Neon"
  = Some {| ColorThemes.name := "Neon";
            ColorThemes.colors := ["#FF00FF"; "#00FFFF"; "#00FF00"; "#FFFF00";
                                   "#FF6600"; "#FF0066"; "#6600FF"; "#00FF66"] |}.
Proof.
  apply (proj1 getThemeByName_round_trip
           {| ColorThemes.name := "Neon";
              ColorThemes.colors := ["#FF00FF"; "#00FFFF"; "#00FF00"; "#FFFF00";
                                     "#FF6600"; "#FF0066"; "#6600FF"; "#00FF66"] |}).
  vm_compute. repeat first [by left | right].
Defined.

